(** * GCP instance scripts: a shallow embedding of
      [Instance/vm_instance_operation.py] and [Instance/start.py]

    The two scripts are glue around the compute SDK.  The SDK itself is not
    part of the repository: its objects are modelled as records whose fields
    are either unset ([None]) or hold the value the script assigned, and its
    calls ([operation.result], [instance_client.insert], ...) as an
    interface the functions are parameterised by.

    Python [str] values are modelled by [string], one character per code
    point below 256.  On that range the regex class [\d] is exactly [0-9]. *)

From Stdlib Require Import String Ascii List ZArith Bool Lia DecimalString.
Import ListNotations.
Open Scope list_scope.
Open Scope string_scope.

Set Implicit Arguments.

(** ** Python values and truthiness *)

(** The values an attribute typed [Any] holds in these scripts. *)
Inductive pyval : Type :=
| PyNone
| PyInt (z : Z)
| PyStr (s : string).

(** [bool(v)]: [None], [0] and [""] are falsy. *)
Definition truthy (v : pyval) : bool :=
  match v with
  | PyNone => false
  | PyInt z => negb (Z.eqb z 0)
  | PyStr s => negb (String.eqb s "")
  end.

(** [str(v)], as an f-string placeholder renders it. *)
Definition py_str (v : pyval) : string :=
  match v with
  | PyNone => "None"
  | PyInt z => NilZero.string_of_int (Z.to_int z)
  | PyStr s => s
  end.

(** Truthiness of a parameter typed [str] with default [None]. *)
Definition truthy_str (o : option string) : bool :=
  match o with
  | None => false
  | Some s => negb (String.eqb s "")
  end.

(** Truthiness of a parameter typed [list] with default [None]. *)
Definition truthy_list {A : Type} (o : option (list A)) : bool :=
  match o with
  | None => false
  | Some [] => false
  | Some (_ :: _) => true
  end.

(** The line feed character of ["...\n"]. *)
Definition LF : ascii := ascii_of_nat 10.
Definition nl : string := String LF "".

(** ** SDK message objects

    A proto message starts with every field unset; a field is [None] until
    the script assigns it.  Each record comes with one setter per field the
    scripts assign, so that [x.f = v] reads [set_f v x]. *)

Record AttachedDiskInitializeParams : Type := mkInitializeParams {
  ip_source_image : option string;
  ip_disk_size_gb : option Z;
  ip_disk_type : option string
}.

Record AttachedDisk : Type := mkAttachedDisk {
  ad_initialize_params : option AttachedDiskInitializeParams;
  ad_auto_delete : option bool;
  ad_boot : option bool
}.

Record AccessConfig : Type := mkAccessConfig {
  ac_type_ : option string;
  ac_name : option string;
  ac_network_tier : option string;
  ac_nat_i_p : option string
}.

Record NetworkInterface : Type := mkNetworkInterface {
  ni_network : option string;
  ni_subnetwork : option string;
  ni_network_i_p : option string;
  ni_access_configs : list AccessConfig
}.

Record AcceleratorConfig : Type := mkAcceleratorConfig {
  accelerator_count : Z;
  accelerator_type : string
}.

Record Scheduling : Type := mkScheduling {
  sch_preemptible : option bool;
  sch_provisioning_model : option string;
  sch_instance_termination_action : option string
}.

(** A reference to a Python list object (its identity). *)
Definition loc : Type := nat.

Record Instance : Type := mkInstance {
  i_network_interfaces : list NetworkInterface;
  i_name : option string;
  i_disks : option loc;   (* the list object assigned to [instance.disks] *)
  i_machine_type : option string;
  i_guest_accelerators : list AcceleratorConfig;
  i_scheduling : option Scheduling;
  i_hostname : option string;
  i_deletion_protection : option bool
}.

Record InsertInstanceRequest : Type := mkInsertInstanceRequest {
  r_zone : option string;
  r_project : option string;
  r_instance_resource : option Instance
}.

(** The constructors [compute_v1.X()]. *)
Definition new_AttachedDiskInitializeParams : AttachedDiskInitializeParams :=
  mkInitializeParams None None None.
Definition new_AttachedDisk : AttachedDisk := mkAttachedDisk None None None.
Definition new_AccessConfig : AccessConfig :=
  mkAccessConfig None None None None.
Definition new_NetworkInterface : NetworkInterface :=
  mkNetworkInterface None None None [].
Definition new_Scheduling : Scheduling := mkScheduling None None None.
Definition new_Instance : Instance :=
  mkInstance [] None None None [] None None None.
Definition new_InsertInstanceRequest : InsertInstanceRequest :=
  mkInsertInstanceRequest None None None.

(** Enum member names used by the script. *)
Definition ONE_TO_ONE_NAT : string := "ONE_TO_ONE_NAT".
Definition PREMIUM : string := "PREMIUM".
Definition SPOT : string := "SPOT".

(** Attribute assignments. *)
Definition set_source_image v (p : AttachedDiskInitializeParams) :=
  mkInitializeParams (Some v) p.(ip_disk_size_gb) p.(ip_disk_type).
Definition set_disk_size_gb v (p : AttachedDiskInitializeParams) :=
  mkInitializeParams p.(ip_source_image) (Some v) p.(ip_disk_type).
Definition set_disk_type v (p : AttachedDiskInitializeParams) :=
  mkInitializeParams p.(ip_source_image) p.(ip_disk_size_gb) (Some v).

Definition set_initialize_params v (d : AttachedDisk) :=
  mkAttachedDisk (Some v) d.(ad_auto_delete) d.(ad_boot).
Definition set_auto_delete v (d : AttachedDisk) :=
  mkAttachedDisk d.(ad_initialize_params) (Some v) d.(ad_boot).
Definition set_boot v (d : AttachedDisk) :=
  mkAttachedDisk d.(ad_initialize_params) d.(ad_auto_delete) (Some v).

Definition set_type_ v (a : AccessConfig) :=
  mkAccessConfig (Some v) a.(ac_name) a.(ac_network_tier) a.(ac_nat_i_p).
Definition set_ac_name v (a : AccessConfig) :=
  mkAccessConfig a.(ac_type_) (Some v) a.(ac_network_tier) a.(ac_nat_i_p).
Definition set_network_tier v (a : AccessConfig) :=
  mkAccessConfig a.(ac_type_) a.(ac_name) (Some v) a.(ac_nat_i_p).
Definition set_nat_i_p v (a : AccessConfig) :=
  mkAccessConfig a.(ac_type_) a.(ac_name) a.(ac_network_tier) (Some v).

Definition set_network v (n : NetworkInterface) :=
  mkNetworkInterface (Some v) n.(ni_subnetwork) n.(ni_network_i_p)
    n.(ni_access_configs).
Definition set_subnetwork v (n : NetworkInterface) :=
  mkNetworkInterface n.(ni_network) (Some v) n.(ni_network_i_p)
    n.(ni_access_configs).
Definition set_network_i_p v (n : NetworkInterface) :=
  mkNetworkInterface n.(ni_network) n.(ni_subnetwork) (Some v)
    n.(ni_access_configs).
Definition set_access_configs v (n : NetworkInterface) :=
  mkNetworkInterface n.(ni_network) n.(ni_subnetwork) n.(ni_network_i_p) v.

Definition set_preemptible v (s : Scheduling) :=
  mkScheduling (Some v) s.(sch_provisioning_model)
    s.(sch_instance_termination_action).
Definition set_provisioning_model v (s : Scheduling) :=
  mkScheduling s.(sch_preemptible) (Some v)
    s.(sch_instance_termination_action).
Definition set_instance_termination_action v (s : Scheduling) :=
  mkScheduling s.(sch_preemptible) s.(sch_provisioning_model) (Some v).

Definition set_network_interfaces v (i : Instance) :=
  mkInstance v i.(i_name) i.(i_disks) i.(i_machine_type)
    i.(i_guest_accelerators) i.(i_scheduling) i.(i_hostname)
    i.(i_deletion_protection).
Definition set_name v (i : Instance) :=
  mkInstance i.(i_network_interfaces) (Some v) i.(i_disks) i.(i_machine_type)
    i.(i_guest_accelerators) i.(i_scheduling) i.(i_hostname)
    i.(i_deletion_protection).
Definition set_disks v (i : Instance) :=
  mkInstance i.(i_network_interfaces) i.(i_name) (Some v) i.(i_machine_type)
    i.(i_guest_accelerators) i.(i_scheduling) i.(i_hostname)
    i.(i_deletion_protection).
Definition set_machine_type v (i : Instance) :=
  mkInstance i.(i_network_interfaces) i.(i_name) i.(i_disks) (Some v)
    i.(i_guest_accelerators) i.(i_scheduling) i.(i_hostname)
    i.(i_deletion_protection).
Definition set_guest_accelerators v (i : Instance) :=
  mkInstance i.(i_network_interfaces) i.(i_name) i.(i_disks)
    i.(i_machine_type) v i.(i_scheduling) i.(i_hostname)
    i.(i_deletion_protection).
Definition set_scheduling v (i : Instance) :=
  mkInstance i.(i_network_interfaces) i.(i_name) i.(i_disks)
    i.(i_machine_type) i.(i_guest_accelerators) (Some v) i.(i_hostname)
    i.(i_deletion_protection).
Definition set_hostname v (i : Instance) :=
  mkInstance i.(i_network_interfaces) i.(i_name) i.(i_disks)
    i.(i_machine_type) i.(i_guest_accelerators) i.(i_scheduling) (Some v)
    i.(i_deletion_protection).
Definition set_deletion_protection v (i : Instance) :=
  mkInstance i.(i_network_interfaces) i.(i_name) i.(i_disks)
    i.(i_machine_type) i.(i_guest_accelerators) i.(i_scheduling)
    i.(i_hostname) (Some v).

Definition set_zone v (r : InsertInstanceRequest) :=
  mkInsertInstanceRequest (Some v) r.(r_project) r.(r_instance_resource).
Definition set_project v (r : InsertInstanceRequest) :=
  mkInsertInstanceRequest r.(r_zone) (Some v) r.(r_instance_resource).
Definition set_instance_resource v (r : InsertInstanceRequest) :=
  mkInsertInstanceRequest r.(r_zone) r.(r_project) (Some v).

(** ** Exceptions *)

Inductive exn : Type :=
| RuntimeError (arg : pyval)
| SdkError (description : string).  (* any exception the SDK raises *)

(** An [int64] field of a message ([disk_size_gb] is one): the assignment
    [x.f = v] of a Python [int] outside the signed 64-bit range raises
    [ValueError] in the SDK; inside the range it stores [v]. *)
Definition int64_min : Z := - 2 ^ 63.
Definition int64_max : Z := 2 ^ 63 - 1.

Definition fits_int64 (v : Z) : bool :=
  Z.leb int64_min v && Z.leb v int64_max.

Definition int64_field (v : Z) : exn + Z :=
  if fits_int64 v then inr v else inl (SdkError "ValueError").

(** A call that returned: [returned r] holds, and [value_of r] is what it
    returned. *)
Definition returned {A : Type} (r : exn + A) : bool :=
  match r with
  | inr _ => true
  | inl _ => false
  end.

Definition value_of {A : Type} (r : exn + A) : returned r = true -> A :=
  match r with
  | inr a => fun _ => a
  | inl _ => fun H => False_rect A (Bool.diff_false_true H)
  end.

(** ** [disk_from_image] *)

(** [auto_delete] is [None] when the caller omits the argument; the
    parameter then takes its default [True].  The function raises, out of
    the assignment of [disk_size_gb], or returns the disk. *)
Definition disk_from_image (disk_type : string) (disk_size_gb : Z)
    (boot : bool) (source_image : string) (auto_delete : option bool)
  : exn + AttachedDisk :=
  let auto_delete := match auto_delete with Some b => b | None => true end in
  let boot_disk := new_AttachedDisk in
  let initialize_params := new_AttachedDiskInitializeParams in
  let initialize_params := set_source_image source_image initialize_params in
  match int64_field disk_size_gb with
  | inl e => inl e
  | inr disk_size_gb =>
      let initialize_params :=
        set_disk_size_gb disk_size_gb initialize_params in
      let initialize_params := set_disk_type disk_type initialize_params in
      let boot_disk := set_initialize_params initialize_params boot_disk in
      let boot_disk := set_auto_delete auto_delete boot_disk in
      let boot_disk := set_boot boot boot_disk in
      inr boot_disk
  end.

(** ** [re.match] for the patterns of the script

    A pattern is a sequence of items; [re.match] anchors at the start of the
    string and succeeds as soon as the whole pattern is consumed.  Without
    flags, [^] holds at the start of the string, and [$] at its end or just
    before a line feed that ends it. *)

Inductive re_item : Type :=
| Bol                              (* ^ *)
| Eol                              (* $ *)
| Lit (s : string)                 (* literal characters *)
| ClassPlus (cls : ascii -> bool). (* [...]+ *)

Definition regex : Type := list re_item.

Fixpoint strip_prefix (p s : string) : option string :=
  match p with
  | EmptyString => Some s
  | String a p' =>
      match s with
      | EmptyString => None
      | String b s' => if Ascii.eqb a b then strip_prefix p' s' else None
      end
  end.

Fixpoint match_here (r : regex) (at_start : bool) (s : string) : bool :=
  match r with
  | [] => true
  | Bol :: r' => at_start && match_here r' at_start s
  | Eol :: r' =>
      (String.eqb s "" || String.eqb s nl) && match_here r' at_start s
  | Lit l :: r' =>
      match strip_prefix l s with
      | Some s' => match_here r' (at_start && String.eqb l "") s'
      | None => false
      end
  | ClassPlus cls :: r' =>
      (fix plus (s : string) : bool :=
         match s with
         | EmptyString => false
         | String c s' => cls c && (plus s' || match_here r' false s')
         end) s
  end.

(** Truthiness of [re.match(pattern, s)]. *)
Definition re_match (pattern : regex) (s : string) : bool :=
  match_here pattern true s.

(** The class [[a-z\d\-]], on code points below 256, where [\d] is
    [0-9]; beyond them [\d] also takes the other decimal digits of
    Unicode, which these strings do not hold. *)
Definition cls_lower_digit_dash (c : ascii) : bool :=
  (Ascii.leb "a" c && Ascii.leb c "z")
  || (Ascii.leb "0" c && Ascii.leb c "9")
  || Ascii.eqb c "-".

(** Every character of [s] is in the class. *)
Fixpoint all_in (cls : ascii -> bool) (s : string) : bool :=
  match s with
  | EmptyString => true
  | String c s' => cls c && all_in cls s'
  end.

(** [r"^zones/[a-z\d\-]+/machineTypes/[a-z\d\-]+$"] *)
Definition machine_type_re : regex :=
  [Bol; Lit "zones/"; ClassPlus cls_lower_digit_dash; Lit "/machineTypes/";
   ClassPlus cls_lower_digit_dash; Eol].

(** ** Operation handles, the store *)

Record Warning : Type := mkWarning {
  w_code : string;
  w_message : string
}.

(** What the waiter reads of an [ExtendedOperation]. *)
Record ExtendedOperation : Type := mkExtendedOperation {
  op_result : Z -> exn + pyval;   (* [operation.result(timeout=t)] *)
  op_error_code : pyval;
  op_error_message : pyval;
  op_name : string;
  op_exception : option exn;      (* [operation.exception()] *)
  op_warnings : list Warning
}.

(** The list objects that are passed as [disks], by reference. *)
Definition heap : Type := list (list AttachedDisk).

Definition alloc (h : heap) (v : list AttachedDisk) : heap * loc :=
  ((h ++ [v])%list, length h).

Definition deref (h : heap) (l : loc) : option (list AttachedDisk) :=
  nth_error h l.

Fixpoint store (h : heap) (l : loc) (v : list AttachedDisk) : heap :=
  match h, l with
  | [], _ => []
  | _ :: h', O => v :: h'
  | x :: h', S l' => x :: store h' l' v
  end.

(** [lst.append(d)] on the list object [l]. *)
Definition list_append (h : heap) (l : loc) (d : AttachedDisk) : heap :=
  match deref h l with
  | Some v => store h l (v ++ [d])%list
  | None => h
  end.

(** What a run does that its caller or the outside can observe. *)
Inductive event : Type :=
| Warn (category message : string)      (* [warnings.warn] *)
| Stdout (text : string)                (* [print(text)] *)
| Stderr (text : string)                (* [print(text, file=sys.stderr)] *)
| CallInsert (request : InsertInstanceRequest)
| CallGet (project zone instance : string)
| CallStart (project zone instance : string)
| CallStop (project zone instance : string)
| CallDelete (project zone instance : string).

(** ** State, output and exceptions

    A run reads and writes the store of list objects and the state of the
    compute service, appends to the trace of what it does, and ends in a
    value or in a raised exception. *)

Section Monad.

Variable World : Type.

Record state : Type := mkState {
  st_heap : heap;
  st_world : World
}.

Record outcome (A : Type) : Type := mkOutcome {
  out_state : state;
  out_trace : list event;     (* oldest first *)
  out_result : exn + A        (* [inl e]: [e] was raised *)
}.

Definition M (A : Type) : Type := state -> outcome A.

Definition ret {A : Type} (a : A) : M A := fun s => mkOutcome s [] (inr a).

Definition bind {A B : Type} (m : M A) (f : A -> M B) : M B :=
  fun s =>
    let o := m s in
    match o.(out_result) with
    | inl e => mkOutcome o.(out_state) o.(out_trace) (inl e)
    | inr a =>
        let o' := f a o.(out_state) in
        mkOutcome o'.(out_state) (o.(out_trace) ++ o'.(out_trace))%list
          o'.(out_result)
    end.

Definition raise {A : Type} (e : exn) : M A := fun s => mkOutcome s [] (inl e).

Definition emit (e : event) : M unit := fun s => mkOutcome s [e] (inr tt).

(** A client call: logged, then answered by the service. *)
Definition call {A : Type} (e : event) (f : World -> World * (exn + A))
  : M A :=
  fun s =>
    let (w, r) := f s.(st_world) in
    mkOutcome (mkState s.(st_heap) w) [e] r.

(** A method of a handle, which raises or returns. *)
Definition lift {A : Type} (r : exn + A) : M A := fun s => mkOutcome s [] r.

Fixpoint for_each {A : Type} (l : list A) (body : A -> M unit) : M unit :=
  match l with
  | [] => ret tt
  | x :: l' => bind (body x) (fun _ => for_each l' body)
  end.

(** The compute service as the scripts use it. *)
Record InstancesClient : Type := mkInstancesClient {
  insert : InsertInstanceRequest -> World -> World * (exn + ExtendedOperation);
  get : string -> string -> string -> World -> World * (exn + Instance);
  start :
    string -> string -> string -> World -> World * (exn + ExtendedOperation);
  stop :
    string -> string -> string -> World -> World * (exn + ExtendedOperation);
  delete :
    string -> string -> string -> World -> World * (exn + ExtendedOperation)
}.

End Monad.

Arguments ret {World A} a.
Arguments bind {World A B} m f.
Arguments raise {World A} e.
Arguments emit {World} e.
Arguments call {World A} e f.
Arguments lift {World A} r.
Arguments for_each {World A} l body.

Declare Scope py_scope.
Delimit Scope py_scope with py.
Notation "x <- m ;; k" := (bind m (fun x => k))
  (at level 61, m at next level, right associativity) : py_scope.
Notation "m ;; k" := (bind m (fun _ => k))
  (at level 61, right associativity) : py_scope.
Open Scope py_scope.

(** [if o: ...] on an optional string [o], with its value in the branch. *)
Definition when_str {A : Type} (o : option string) (f : string -> A -> A)
    (x : A) : A :=
  match o with
  | Some v => if truthy (PyStr v) then f v x else x
  | None => x
  end.

(** The value a parameter is bound to: the argument, or the default when
    the argument is omitted. *)
Definition or_default {A : Type} (o : option A) (d : A) : A :=
  match o with
  | Some v => v
  | None => d
  end.

(** The value of a parameter whose default is itself optional. *)
Definition or_else {A : Type} (o d : option A) : option A :=
  match o with
  | Some v => Some v
  | None => d
  end.

(** ** [Instance/vm_instance_operation.py] *)

(** The default values of [create_instance], evaluated when the [def]
    statement runs. *)
Record create_instance_defaults : Type := mkDefaults {
  d_disks : loc;
  d_machine_type : string;
  d_network_link : string;
  d_subnetwork_link : option string;
  d_internal_ip : option string;
  d_external_access : bool;
  d_external_ipv4 : option string;
  d_accelerators : option (list AcceleratorConfig);
  d_preemptible : bool;
  d_spot : bool;
  d_instance_termination_action : string;
  d_custom_hostname : option string;
  d_delete_protection : bool
}.

(** The [def create_instance(...)] statement: the list literal of the
    [disks] default is built here, once, and the function object keeps a
    reference to it.  The call of [disk_from_image] in it returns: its
    size, 10, fits the field. *)
Definition def_create_instance (h : heap) : heap * create_instance_defaults :=
  let (h', disks) :=
    alloc h
      [value_of
         (disk_from_image "zones/us-central1-c/diskTypes/pd-balanced" 10 true
            "projects/debian-cloud/global/images/debian-11-bullseye-v20230615"
            None)
         eq_refl] in
  (h', mkDefaults disks "n1-standard-1" "global/networks/default" None None
         false None None false false "STOP" None false).

(** The keyword arguments of a call; [None] is an omitted argument (for the
    parameters whose default is [None], also an explicit [None]). *)
Record create_instance_kwargs : Type := mkKwargs {
  kw_disks : option loc;
  kw_machine_type : option string;
  kw_network_link : option string;
  kw_subnetwork_link : option string;
  kw_internal_ip : option string;
  kw_external_access : option bool;
  kw_external_ipv4 : option string;
  kw_accelerators : option (list AcceleratorConfig);
  kw_preemptible : option bool;
  kw_spot : option bool;
  kw_instance_termination_action : option string;
  kw_custom_hostname : option string;
  kw_delete_protection : option bool
}.

(** A call that passes only the three positional arguments. *)
Definition no_kwargs : create_instance_kwargs :=
  mkKwargs None None None None None None None None None None None None None.

(** A call that passes one more keyword argument. *)
Definition with_disks v (kw : create_instance_kwargs) :=
  mkKwargs (Some v) kw.(kw_machine_type) kw.(kw_network_link)
    kw.(kw_subnetwork_link) kw.(kw_internal_ip) kw.(kw_external_access)
    kw.(kw_external_ipv4) kw.(kw_accelerators) kw.(kw_preemptible)
    kw.(kw_spot) kw.(kw_instance_termination_action) kw.(kw_custom_hostname)
    kw.(kw_delete_protection).
Definition with_machine_type v (kw : create_instance_kwargs) :=
  mkKwargs kw.(kw_disks) (Some v) kw.(kw_network_link)
    kw.(kw_subnetwork_link) kw.(kw_internal_ip) kw.(kw_external_access)
    kw.(kw_external_ipv4) kw.(kw_accelerators) kw.(kw_preemptible)
    kw.(kw_spot) kw.(kw_instance_termination_action) kw.(kw_custom_hostname)
    kw.(kw_delete_protection).
Definition with_subnetwork_link v (kw : create_instance_kwargs) :=
  mkKwargs kw.(kw_disks) kw.(kw_machine_type) kw.(kw_network_link)
    v kw.(kw_internal_ip) kw.(kw_external_access)
    kw.(kw_external_ipv4) kw.(kw_accelerators) kw.(kw_preemptible)
    kw.(kw_spot) kw.(kw_instance_termination_action) kw.(kw_custom_hostname)
    kw.(kw_delete_protection).
Definition with_internal_ip v (kw : create_instance_kwargs) :=
  mkKwargs kw.(kw_disks) kw.(kw_machine_type) kw.(kw_network_link)
    kw.(kw_subnetwork_link) v kw.(kw_external_access)
    kw.(kw_external_ipv4) kw.(kw_accelerators) kw.(kw_preemptible)
    kw.(kw_spot) kw.(kw_instance_termination_action) kw.(kw_custom_hostname)
    kw.(kw_delete_protection).
Definition with_external_access v (kw : create_instance_kwargs) :=
  mkKwargs kw.(kw_disks) kw.(kw_machine_type) kw.(kw_network_link)
    kw.(kw_subnetwork_link) kw.(kw_internal_ip) (Some v)
    kw.(kw_external_ipv4) kw.(kw_accelerators) kw.(kw_preemptible)
    kw.(kw_spot) kw.(kw_instance_termination_action) kw.(kw_custom_hostname)
    kw.(kw_delete_protection).
Definition with_external_ipv4 v (kw : create_instance_kwargs) :=
  mkKwargs kw.(kw_disks) kw.(kw_machine_type) kw.(kw_network_link)
    kw.(kw_subnetwork_link) kw.(kw_internal_ip) kw.(kw_external_access)
    v kw.(kw_accelerators) kw.(kw_preemptible)
    kw.(kw_spot) kw.(kw_instance_termination_action) kw.(kw_custom_hostname)
    kw.(kw_delete_protection).
Definition with_preemptible v (kw : create_instance_kwargs) :=
  mkKwargs kw.(kw_disks) kw.(kw_machine_type) kw.(kw_network_link)
    kw.(kw_subnetwork_link) kw.(kw_internal_ip) kw.(kw_external_access)
    kw.(kw_external_ipv4) kw.(kw_accelerators) (Some v)
    kw.(kw_spot) kw.(kw_instance_termination_action) kw.(kw_custom_hostname)
    kw.(kw_delete_protection).
Definition with_spot v (kw : create_instance_kwargs) :=
  mkKwargs kw.(kw_disks) kw.(kw_machine_type) kw.(kw_network_link)
    kw.(kw_subnetwork_link) kw.(kw_internal_ip) kw.(kw_external_access)
    kw.(kw_external_ipv4) kw.(kw_accelerators) kw.(kw_preemptible)
    (Some v) kw.(kw_instance_termination_action) kw.(kw_custom_hostname)
    kw.(kw_delete_protection).
Definition with_instance_termination_action v (kw : create_instance_kwargs) :=
  mkKwargs kw.(kw_disks) kw.(kw_machine_type) kw.(kw_network_link)
    kw.(kw_subnetwork_link) kw.(kw_internal_ip) kw.(kw_external_access)
    kw.(kw_external_ipv4) kw.(kw_accelerators) kw.(kw_preemptible)
    kw.(kw_spot) (Some v) kw.(kw_custom_hostname)
    kw.(kw_delete_protection).
Definition with_custom_hostname v (kw : create_instance_kwargs) :=
  mkKwargs kw.(kw_disks) kw.(kw_machine_type) kw.(kw_network_link)
    kw.(kw_subnetwork_link) kw.(kw_internal_ip) kw.(kw_external_access)
    kw.(kw_external_ipv4) kw.(kw_accelerators) kw.(kw_preemptible)
    kw.(kw_spot) kw.(kw_instance_termination_action) v
    kw.(kw_delete_protection).

(** [instance.scheduling.f = v]: the assignment goes to the object that
    [instance.scheduling] holds. *)
Definition upd_scheduling (f : Scheduling -> Scheduling) (i : Instance)
  : Instance :=
  set_scheduling (f (or_default i.(i_scheduling) new_Scheduling)) i.

Section VmInstanceOperation.

Variable World : Type.
Variable instance_client : InstancesClient World.

Definition wait_for_extended_operation (operation : ExtendedOperation)
    (verbose_name : option string) (timeout : option Z) : M World pyval :=
  let verbose_name := or_default verbose_name "operation" in
  let timeout := or_default timeout 300%Z in
  result <- lift (operation.(op_result) timeout) ;;
  (if truthy operation.(op_error_code) then
     emit (Stderr ("Error during " ++ verbose_name ++ ": [Code: "
                   ++ py_str operation.(op_error_code) ++ "]: "
                   ++ py_str operation.(op_error_message))) ;;
     emit (Stderr ("Operation ID: " ++ operation.(op_name))) ;;
     raise (or_default operation.(op_exception)
              (RuntimeError operation.(op_error_message)))
   else ret tt) ;;
  (match operation.(op_warnings) with
   | _ :: _ =>
       emit (Stderr ("Warnings during " ++ verbose_name ++ ":" ++ nl)) ;;
       for_each operation.(op_warnings) (fun warning =>
         emit (Stderr (" - " ++ warning.(w_code) ++ ": "
                       ++ warning.(w_message))))
   | [] => ret tt
   end) ;;
  ret result.

Definition create_instance (defaults : create_instance_defaults)
    (project_id zone instance_name : string) (kw : create_instance_kwargs)
  : M World Instance :=
  let disks := or_default kw.(kw_disks) defaults.(d_disks) in
  let machine_type :=
    or_default kw.(kw_machine_type) defaults.(d_machine_type) in
  let network_link :=
    or_default kw.(kw_network_link) defaults.(d_network_link) in
  let subnetwork_link :=
    or_else kw.(kw_subnetwork_link) defaults.(d_subnetwork_link) in
  let internal_ip := or_else kw.(kw_internal_ip) defaults.(d_internal_ip) in
  let external_access :=
    or_default kw.(kw_external_access) defaults.(d_external_access) in
  let external_ipv4 :=
    or_else kw.(kw_external_ipv4) defaults.(d_external_ipv4) in
  let accelerators := or_else kw.(kw_accelerators) defaults.(d_accelerators) in
  let preemptible := or_default kw.(kw_preemptible) defaults.(d_preemptible) in
  let spot := or_default kw.(kw_spot) defaults.(d_spot) in
  let instance_termination_action :=
    or_default kw.(kw_instance_termination_action)
      defaults.(d_instance_termination_action) in
  let custom_hostname :=
    or_else kw.(kw_custom_hostname) defaults.(d_custom_hostname) in
  let delete_protection :=
    or_default kw.(kw_delete_protection) defaults.(d_delete_protection) in

  let network_interface := new_NetworkInterface in
  let network_interface := set_network network_link network_interface in
  let network_interface :=
    when_str subnetwork_link set_subnetwork network_interface in
  let network_interface :=
    when_str internal_ip set_network_i_p network_interface in
  let network_interface :=
    if external_access then
      let access := new_AccessConfig in
      let access := set_type_ ONE_TO_ONE_NAT access in
      let access := set_ac_name "External NAT" access in
      let access := set_network_tier PREMIUM access in
      let access := when_str external_ipv4 set_nat_i_p access in
      set_access_configs [access] network_interface
    else network_interface in

  let instance := new_Instance in
  let instance := set_network_interfaces [network_interface] instance in
  let instance := set_name instance_name instance in
  let instance := set_disks disks instance in
  let instance :=
    if re_match machine_type_re machine_type then
      set_machine_type machine_type instance
    else
      set_machine_type ("zones/" ++ zone ++ "/machineTypes/" ++ machine_type)
        instance in
  let instance :=
    if truthy_list accelerators then
      set_guest_accelerators (or_default accelerators []) instance
    else instance in

  instance <-
    (if preemptible then
       emit (Warn "DeprecationWarning"
               "Preemptible VMs are being replaced by Spot VMs.") ;;
       let instance := set_scheduling new_Scheduling instance in
       let instance := upd_scheduling (set_preemptible true) instance in
       ret instance
     else ret instance) ;;

  let instance :=
    if spot then
      let instance := set_scheduling new_Scheduling instance in
      let instance := upd_scheduling (set_provisioning_model SPOT) instance in
      upd_scheduling
        (set_instance_termination_action instance_termination_action) instance
    else instance in
  let instance :=
    match custom_hostname with
    | Some h => set_hostname h instance
    | None => instance
    end in
  let instance :=
    if delete_protection then set_deletion_protection true instance
    else instance in

  let request := new_InsertInstanceRequest in
  let request := set_zone zone request in
  let request := set_project project_id request in
  let request := set_instance_resource instance request in

  emit (Stdout ("Creating the " ++ instance_name ++ " instance in " ++ zone
                ++ "...")) ;;
  operation <- call (CallInsert request) (instance_client.(insert) request) ;;
  wait_for_extended_operation operation (Some "instance creation") None ;;
  emit (Stdout ("Instance " ++ instance_name ++ " created.")) ;;
  call (CallGet project_id zone instance_name)
    (instance_client.(get) project_id zone instance_name).

Definition start_instance (project_id zone instance_name : string)
  : M World unit :=
  operation <- call (CallStart project_id zone instance_name)
                 (instance_client.(start) project_id zone instance_name) ;;
  wait_for_extended_operation operation (Some "instance start") None ;;
  emit (Stdout ("Instance " ++ instance_name ++ " started.")).

Definition stop_instance (project_id zone instance_name : string)
  : M World unit :=
  operation <- call (CallStop project_id zone instance_name)
                 (instance_client.(stop) project_id zone instance_name) ;;
  wait_for_extended_operation operation (Some "instance stopping") None ;;
  emit (Stdout ("Instance " ++ instance_name ++ " stopped.")).

Definition delete_instance (project_id zone instance_name : string)
  : M World unit :=
  emit (Stdout ("Deleting " ++ instance_name ++ " from " ++ zone ++ "...")) ;;
  operation <- call (CallDelete project_id zone instance_name)
                 (instance_client.(delete) project_id zone instance_name) ;;
  wait_for_extended_operation operation (Some "instance deletion") None ;;
  emit (Stdout ("Instance " ++ instance_name ++ " deleted.")).

End VmInstanceOperation.

(** ** [Instance/start.py] *)

Module Start.
Section Start.

Variable World : Type.
Variable instance_client : InstancesClient World.

Definition wait_for_extended_operation (operation : ExtendedOperation)
    (verbose_name : option string) (timeout : option Z) : M World pyval :=
  let verbose_name := or_default verbose_name "operation" in
  let timeout := or_default timeout 300%Z in
  result <- lift (operation.(op_result) timeout) ;;
  (if truthy operation.(op_error_code) then
     emit (Stderr ("Error during " ++ verbose_name ++ ": [Code: "
                   ++ py_str operation.(op_error_code) ++ "]: "
                   ++ py_str operation.(op_error_message))) ;;
     emit (Stderr ("Operation ID: " ++ operation.(op_name))) ;;
     raise (or_default operation.(op_exception)
              (RuntimeError operation.(op_error_message)))
   else ret tt) ;;
  (match operation.(op_warnings) with
   | _ :: _ =>
       emit (Stderr ("Warnings during " ++ verbose_name ++ ":" ++ nl)) ;;
       for_each operation.(op_warnings) (fun warning =>
         emit (Stderr (" - " ++ warning.(w_code) ++ ": "
                       ++ warning.(w_message))))
   | [] => ret tt
   end) ;;
  ret result.

Definition start_instance (project_id zone instance_name : string)
  : M World unit :=
  operation <- call (CallStart project_id zone instance_name)
                 (instance_client.(start) project_id zone instance_name) ;;
  wait_for_extended_operation operation (Some "instance start") None ;;
  ret tt.

(** The statement at the bottom of the script. *)
Definition main : M World unit :=
  start_instance "sanguine-line-391106" "us-central1-c" "my-instance".

End Start.
End Start.

(** ** Observations on a trace *)

Definition stderr_of (t : list event) : list string :=
  flat_map (fun e => match e with Stderr s => [s] | _ => [] end) t.

Definition warnings_of (t : list event) : list (string * string) :=
  flat_map (fun e => match e with Warn c m => [(c, m)] | _ => [] end) t.

(** The requests handed to [instance_client.insert]. *)
Definition inserted (t : list event) : list InsertInstanceRequest :=
  flat_map (fun e => match e with CallInsert r => [r] | _ => [] end) t.

(** The instances a run has built and submitted. *)
Definition built_instances (t : list event) : list Instance :=
  flat_map (fun r => match r.(r_instance_resource) with
                     | Some i => [i]
                     | None => []
                     end) (inserted t).

(** The text of the diagnostics the waiter prints. *)
Definition error_line (verbose_name : string) (operation : ExtendedOperation)
  : string :=
  "Error during " ++ verbose_name ++ ": [Code: "
  ++ py_str operation.(op_error_code) ++ "]: "
  ++ py_str operation.(op_error_message).

Definition operation_id_line (operation : ExtendedOperation) : string :=
  "Operation ID: " ++ operation.(op_name).

Definition warnings_header (verbose_name : string) : string :=
  "Warnings during " ++ verbose_name ++ ":" ++ nl.

Definition warning_line (warning : Warning) : string :=
  " - " ++ warning.(w_code) ++ ": " ++ warning.(w_message).

(** ** The instance a call builds

    The assignments of [create_instance] that build the network interface
    and the instance, as functions of the values the parameters are bound
    to.  [create_instance_submits] below shows that this is the instance
    [create_instance] hands to [instance_client.insert]. *)

Definition network_interface_of (network_link : string)
    (subnetwork_link internal_ip : option string) (external_access : bool)
    (external_ipv4 : option string) : NetworkInterface :=
  let network_interface := new_NetworkInterface in
  let network_interface := set_network network_link network_interface in
  let network_interface :=
    when_str subnetwork_link set_subnetwork network_interface in
  let network_interface :=
    when_str internal_ip set_network_i_p network_interface in
  if external_access then
    let access := new_AccessConfig in
    let access := set_type_ ONE_TO_ONE_NAT access in
    let access := set_ac_name "External NAT" access in
    let access := set_network_tier PREMIUM access in
    let access := when_str external_ipv4 set_nat_i_p access in
    set_access_configs [access] network_interface
  else network_interface.

Definition instance_of (zone instance_name : string) (disks : loc)
    (machine_type : string) (network_interface : NetworkInterface)
    (accelerators : option (list AcceleratorConfig))
    (preemptible spot : bool) (instance_termination_action : string)
    (custom_hostname : option string) (delete_protection : bool)
  : Instance :=
  let instance := new_Instance in
  let instance := set_network_interfaces [network_interface] instance in
  let instance := set_name instance_name instance in
  let instance := set_disks disks instance in
  let instance :=
    if re_match machine_type_re machine_type then
      set_machine_type machine_type instance
    else
      set_machine_type ("zones/" ++ zone ++ "/machineTypes/" ++ machine_type)
        instance in
  let instance :=
    if truthy_list accelerators then
      set_guest_accelerators (or_default accelerators []) instance
    else instance in
  let instance :=
    if preemptible then
      let instance := set_scheduling new_Scheduling instance in
      upd_scheduling (set_preemptible true) instance
    else instance in
  let instance :=
    if spot then
      let instance := set_scheduling new_Scheduling instance in
      let instance := upd_scheduling (set_provisioning_model SPOT) instance in
      upd_scheduling
        (set_instance_termination_action instance_termination_action) instance
    else instance in
  let instance :=
    match custom_hostname with
    | Some h => set_hostname h instance
    | None => instance
    end in
  if delete_protection then set_deletion_protection true instance
  else instance.

(** The same, from the defaults and the keyword arguments of a call. *)
Definition built (defaults : create_instance_defaults)
    (zone instance_name : string) (kw : create_instance_kwargs) : Instance :=
  instance_of zone instance_name
    (or_default kw.(kw_disks) defaults.(d_disks))
    (or_default kw.(kw_machine_type) defaults.(d_machine_type))
    (network_interface_of
       (or_default kw.(kw_network_link) defaults.(d_network_link))
       (or_else kw.(kw_subnetwork_link) defaults.(d_subnetwork_link))
       (or_else kw.(kw_internal_ip) defaults.(d_internal_ip))
       (or_default kw.(kw_external_access) defaults.(d_external_access))
       (or_else kw.(kw_external_ipv4) defaults.(d_external_ipv4)))
    (or_else kw.(kw_accelerators) defaults.(d_accelerators))
    (or_default kw.(kw_preemptible) defaults.(d_preemptible))
    (or_default kw.(kw_spot) defaults.(d_spot))
    (or_default kw.(kw_instance_termination_action)
       defaults.(d_instance_termination_action))
    (or_else kw.(kw_custom_hostname) defaults.(d_custom_hostname))
    (or_default kw.(kw_delete_protection) defaults.(d_delete_protection)).

(** An optional string as a truthiness test lets it through. *)
Definition if_truthy (o : option string) : option string :=
  if truthy_str o then o else None.

(** The deprecation warning of [create_instance]. *)
Definition preemptible_warning : event :=
  Warn "DeprecationWarning" "Preemptible VMs are being replaced by Spot VMs.".

(** Runs that leave the store of list objects as they found it. *)
Definition keeps_heap {World A : Type} (m : M World A) : Prop :=
  forall s, (m s).(out_state).(st_heap) = s.(st_heap).

(** ** Sample inputs *)

Definition sample_warning : Warning :=
  mkWarning "DEPRECATED_RESOURCE_USED" "The image is deprecated.".

(** A finished operation that reports an error and a warning, and for which
    the SDK supplies no exception. *)
Definition op_failed : ExtendedOperation :=
  mkExtendedOperation (fun _ => inr PyNone) (PyInt 500)
    (PyStr "Internal error") "operation-1" None [sample_warning].

(** A failed operation as the SDK hands it out: [operation.result] raises
    the error of the operation, which [operation.exception()] returns too. *)
Definition op_failed_raising : ExtendedOperation :=
  mkExtendedOperation (fun _ => inl (SdkError "InternalServerError"))
    (PyInt 500) (PyStr "Internal error") "operation-3"
    (Some (SdkError "InternalServerError")) [].

(** An operation that is still running when the timeout expires, with an
    error code all the same. *)
Definition op_timed_out : ExtendedOperation :=
  mkExtendedOperation (fun _ => inl (SdkError "TimeoutError"))
    (PyInt 500) (PyStr "Internal error") "operation-4"
    (Some (SdkError "InternalServerError")) [].

(** A finished operation without error code, with one warning. *)
Definition op_warned : ExtendedOperation :=
  mkExtendedOperation (fun _ => inr (PyStr "done")) (PyInt 0) (PyStr "")
    "operation-2" None [sample_warning].

(** A service whose every operation is [op_warned]. *)
Definition sample_client : InstancesClient unit :=
  mkInstancesClient
    (fun _ w => (w, inr op_warned))
    (fun _ _ _ w => (w, inr new_Instance))
    (fun _ _ _ w => (w, inr op_warned))
    (fun _ _ _ w => (w, inr op_warned))
    (fun _ _ _ w => (w, inr op_warned)).

(** The store right after the module has been loaded, and the defaults of
    [create_instance] with it. *)
Definition loaded_heap : heap := fst (def_create_instance []).
Definition loaded_defaults : create_instance_defaults :=
  snd (def_create_instance []).
Definition loaded_state : state unit := mkState loaded_heap tt.

(** ** More observations on a run *)

Definition stdout_of (t : list event) : list string :=
  flat_map (fun e => match e with Stdout s => [s] | _ => [] end) t.

(** The calls made to the compute service, in order. *)
Definition is_call (e : event) : bool :=
  match e with
  | Warn _ _ | Stdout _ | Stderr _ => false
  | CallInsert _ | CallGet _ _ _ | CallStart _ _ _ | CallStop _ _ _
  | CallDelete _ _ _ => true
  end.

Definition calls_of (t : list event) : list event := filter is_call t.

(** The handle lets the waiter through: [operation.result(timeout)] returns
    and the error code is falsy. *)
Definition operation_succeeds (operation : ExtendedOperation) (timeout : Z)
  : bool :=
  match operation.(op_result) timeout with
  | inl _ => false
  | inr _ => negb (truthy operation.(op_error_code))
  end.

(** A service whose every operation is [op_failed]. *)
Definition failing_client : InstancesClient unit :=
  mkInstancesClient
    (fun _ w => (w, inr op_failed))
    (fun _ _ _ w => (w, inr new_Instance))
    (fun _ _ _ w => (w, inr op_failed))
    (fun _ _ _ w => (w, inr op_failed))
    (fun _ _ _ w => (w, inr op_failed)).

(** What the waiter prints for the warnings of a handle. *)
Definition warning_lines (verbose_name : string)
    (operation : ExtendedOperation) : list string :=
  match operation.(op_warnings) with
  | [] => []
  | ws => warnings_header verbose_name :: map warning_line ws
  end.

(** An ASCII character: a code point below 128. *)
Definition is_ascii (c : ascii) : bool :=
  match c with
  | Ascii _ _ _ _ _ _ _ b7 => negb b7
  end.

(** * Properties *)

(** ** The monad *)

Lemma for_each_emit (World A : Type) (f : A -> event) (l : list A)
    (s : state World) :
  for_each l (fun x => emit (f x)) s = mkOutcome s (map f l) (inr tt).
Proof.
  induction l as [|x l IH]; simpl.
  - reflexivity.
  - unfold bind at 1. simpl. rewrite IH. reflexivity.
Qed.

Lemma stderr_of_app (t u : list event) :
  stderr_of (t ++ u)%list = (stderr_of t ++ stderr_of u)%list.
Proof. apply flat_map_app. Qed.

Lemma stderr_of_map_Stderr (l : list string) :
  stderr_of (map Stderr l) = l.
Proof.
  induction l as [|x l IH]; simpl; [reflexivity|]. now rewrite IH.
Qed.

(** ** The pattern matcher *)

Lemma strip_prefix_spec (p s r : string) :
  strip_prefix p s = Some r <-> s = p ++ r.
Proof.
  revert s. induction p as [|a p IH]; intros s; simpl.
  - split; [now intros [= ->] | now intros ->].
  - destruct s as [|b s]; [split; discriminate|].
    destruct (Ascii.eqb_spec a b) as [->|Hab].
    + rewrite IH. split; [now intros -> | now intros [= ->]].
    + split; [discriminate | intros [= -> _]; now elim Hab].
Qed.

(** One character of a [[...]+] item: it must be in the class; then either
    the item takes more, or the rest of the pattern starts. *)
Lemma match_here_plus_step (cls : ascii -> bool) (r : regex) (b : bool)
    (c : ascii) (s : string) :
  match_here (ClassPlus cls :: r) b (String c s) =
    cls c && (match_here (ClassPlus cls :: r) b s || match_here r false s).
Proof. reflexivity. Qed.

Lemma match_here_plus (cls : ascii -> bool) (r : regex) (b : bool)
    (s : string) :
  match_here (ClassPlus cls :: r) b s = true <->
  exists u v, s = u ++ v /\ u <> "" /\ all_in cls u = true
              /\ match_here r false v = true.
Proof.
  induction s as [|c s IH].
  - split; [discriminate|].
    intros (u & v & Hs & Hu & _). destruct u; [congruence | discriminate].
  - rewrite match_here_plus_step, andb_true_iff, orb_true_iff, IH.
    split.
    + intros [Hc [(u & v & -> & Hu & Hall & Hv) | Hv]].
      * exists (String c u), v. simpl. rewrite Hc, Hall. now repeat split.
      * exists (String c ""), s. simpl. rewrite Hc. now repeat split.
    + intros (u & v & Hs & Hu & Hall & Hv).
      destruct u as [|c' u]; [congruence|].
      simpl in Hs, Hall. injection Hs as <- ->.
      apply andb_true_iff in Hall as [Hc Hall]. split; [exact Hc|].
      destruct u as [|c2 u]; [now right|].
      left. exists (String c2 u), v. now repeat split.
Qed.

Lemma match_here_lit (l : string) (r : regex) (b : bool) (s : string) :
  match_here (Lit l :: r) b s = true <->
  exists v, s = l ++ v /\ match_here r (b && String.eqb l "") v = true.
Proof.
  cbn [match_here].
  destruct (strip_prefix l s) as [v|] eqn:E.
  - apply strip_prefix_spec in E. split.
    + intros H. now exists v.
    + intros (v' & Hs & H). rewrite E in Hs.
      assert (v = v') as ->; [|exact H].
      clear -Hs. induction l; simpl in Hs; [exact Hs|].
      injection Hs as Hs. now apply IHl.
  - split; [discriminate|].
    intros (v & Hs & _). apply strip_prefix_spec in Hs. congruence.
Qed.

Lemma match_here_eol (b : bool) (s : string) :
  match_here [Eol] b s = true <-> s = "" \/ s = nl.
Proof.
  cbn [match_here]. rewrite andb_true_r, orb_true_iff.
  now rewrite !String.eqb_eq.
Qed.

(** The strings [machine_type_re] matches: [zones/Z/machineTypes/T] with
    [Z] and [T] non-empty over [[a-z0-9-]], possibly followed by one line
    feed. *)
Lemma machine_type_re_language (s : string) :
  re_match machine_type_re s = true <->
  exists z t e,
    s = "zones/" ++ z ++ "/machineTypes/" ++ t ++ e
    /\ z <> "" /\ all_in cls_lower_digit_dash z = true
    /\ t <> "" /\ all_in cls_lower_digit_dash t = true
    /\ (e = "" \/ e = nl).
Proof.
  unfold re_match, machine_type_re.
  change (match_here (Bol :: ?r) true s) with (true && match_here r true s).
  rewrite andb_true_l, match_here_lit.
  split.
  - intros (v & -> & H).
    apply match_here_plus in H as (z & v1 & -> & Hz & Hza & H).
    apply match_here_lit in H as (v2 & -> & H).
    apply match_here_plus in H as (t & e & -> & Ht & Hta & H).
    apply match_here_eol in H.
    exists z, t, e. now repeat split.
  - intros (z & t & e & -> & Hz & Hza & Ht & Hta & He).
    eexists. split; [reflexivity|].
    apply match_here_plus. exists z, ("/machineTypes/" ++ t ++ e).
    repeat split; try assumption.
    apply match_here_lit. eexists. split; [reflexivity|].
    apply match_here_plus. exists t, e. repeat split; try assumption.
    now apply match_here_eol.
Qed.

(** ** The waiter *)

(** Every run of the waiter, by cases on what the handle reports. *)
Lemma wait_run (World : Type) (operation : ExtendedOperation)
    (verbose_name : option string) (timeout : option Z) (s : state World) :
  wait_for_extended_operation operation verbose_name timeout s =
  match operation.(op_result) (or_default timeout 300%Z) with
  | inl e => mkOutcome s [] (inl e)
  | inr result =>
      let label := or_default verbose_name "operation" in
      if truthy operation.(op_error_code) then
        mkOutcome s
          [Stderr (error_line label operation);
           Stderr (operation_id_line operation)]
          (inl (or_default operation.(op_exception)
                  (RuntimeError operation.(op_error_message))))
      else
        match operation.(op_warnings) with
        | [] => mkOutcome s [] (inr result)
        | ws =>
            mkOutcome s
              (Stderr (warnings_header label)
               :: map (fun w => Stderr (warning_line w)) ws)
              (inr result)
        end
  end.
Proof.
  unfold wait_for_extended_operation, bind, lift; simpl.
  destruct (op_result operation (or_default timeout 300%Z)) as [e|r];
    simpl; [reflexivity|].
  destruct (truthy (op_error_code operation)); simpl; [reflexivity|].
  destruct (op_warnings operation) as [|w ws] eqn:E; simpl; [reflexivity|].
  unfold bind; simpl.
  rewrite (for_each_emit (fun x => Stderr (warning_line x))).
  simpl. rewrite app_nil_r. reflexivity.
Qed.

(** Both scripts carry the same waiter. *)
Lemma start_wait_same (World : Type) :
  @Start.wait_for_extended_operation World = @wait_for_extended_operation World.
Proof. reflexivity. Qed.

(** C1, as stated, fails: with a truthy error code, when
    [operation.result] itself raises, the waiter prints no diagnostic at
    all; and when that is a timeout, what it raises is the timeout, not the
    exception the handle supplies.  Both copies of the waiter agree. *)
Lemma wait_error_code_without_diagnostic :
  truthy op_failed_raising.(op_error_code) = true
  /\ (wait_for_extended_operation op_failed_raising (Some "instance start")
        None loaded_state).(out_trace) = []
  /\ truthy op_timed_out.(op_error_code) = true
  /\ op_timed_out.(op_exception) = Some (SdkError "InternalServerError")
  /\ (wait_for_extended_operation op_timed_out (Some "instance start") None
        loaded_state)
     = mkOutcome loaded_state [] (inl (SdkError "TimeoutError"))
  /\ (Start.wait_for_extended_operation op_timed_out
        (Some "instance start") None loaded_state)
     = mkOutcome loaded_state [] (inl (SdkError "TimeoutError")).
Proof. repeat split. Qed.

(** C1, amended.  When the error code of the handle is truthy the waiter
    never returns a result.  Once [operation.result] has returned, it
    prints two lines to the error stream, the first with the label, the
    error code and the error message, the second with the operation
    identifier, and raises the exception the handle supplies, or
    [RuntimeError(error_message)] when it supplies none.  When
    [operation.result] itself raises, that exception propagates and
    nothing is printed.  [start.py] has the same waiter. *)
Theorem wait_error_code_fails (World : Type) (operation : ExtendedOperation)
    (verbose_name : option string) (timeout : option Z) (s : state World) :
  truthy operation.(op_error_code) = true ->
  let o := wait_for_extended_operation operation verbose_name timeout s in
  Start.wait_for_extended_operation operation verbose_name timeout s = o
  /\ (forall result, o.(out_result) <> inr result)
  /\ (forall result,
        operation.(op_result) (or_default timeout 300%Z) = inr result ->
        o.(out_trace) =
          [Stderr ("Error during " ++ or_default verbose_name "operation"
                   ++ ": [Code: " ++ py_str operation.(op_error_code)
                   ++ "]: " ++ py_str operation.(op_error_message));
           Stderr ("Operation ID: " ++ operation.(op_name))]
        /\ o.(out_result) =
             inl (match operation.(op_exception) with
                  | Some e => e
                  | None => RuntimeError operation.(op_error_message)
                  end))
  /\ (forall e,
        operation.(op_result) (or_default timeout 300%Z) = inl e ->
        o.(out_trace) = [] /\ o.(out_result) = inl e).
Proof.
  intros Hcode o. subst o. split; [reflexivity|].
  rewrite wait_run, Hcode.
  destruct (op_result operation (or_default timeout 300%Z)) as [e|r]; simpl.
  - split; [discriminate|]. split; [discriminate|].
    intros e' He. inversion He. now split.
  - split; [discriminate|]. split; [|discriminate].
    intros r' _. split; reflexivity.
Qed.

Lemma wait_error_code_fails_witness :
  truthy op_failed.(op_error_code) = true
  /\ (wait_for_extended_operation op_failed (Some "instance start") None
        loaded_state).(out_trace) =
       [Stderr "Error during instance start: [Code: 500]: Internal error";
        Stderr "Operation ID: operation-1"]
  /\ (wait_for_extended_operation op_failed (Some "instance start") None
        loaded_state).(out_result)
     = inl (RuntimeError (PyStr "Internal error")).
Proof.
  split; [reflexivity|].
  exact (proj1 (proj2 (proj2
    (wait_error_code_fails op_failed (Some "instance start") None
       loaded_state eq_refl))) PyNone eq_refl).
Defined.

(** C2.  When the error code is falsy, the warnings list is not empty and
    [operation.result] has returned, the waiter returns that result; what
    it prints to the error stream is a header followed by one line per
    warning, in order, each with the code and the message of its warning. *)
Theorem wait_warnings_returns_result (World : Type)
    (operation : ExtendedOperation) (verbose_name : option string)
    (timeout : option Z) (s : state World) (result : pyval) :
  truthy operation.(op_error_code) = false ->
  operation.(op_warnings) <> [] ->
  operation.(op_result) (or_default timeout 300%Z) = inr result ->
  let o := wait_for_extended_operation operation verbose_name timeout s in
  o.(out_result) = inr result
  /\ o.(out_trace) = map Stderr (stderr_of o.(out_trace))
  /\ stderr_of o.(out_trace) =
       ("Warnings during " ++ or_default verbose_name "operation" ++ ":" ++ nl)
       :: map (fun warning =>
                 " - " ++ warning.(w_code) ++ ": " ++ warning.(w_message))
            operation.(op_warnings)
  /\ length (tl (stderr_of o.(out_trace))) = length operation.(op_warnings).
Proof.
  intros Hcode Hw Hres o. subst o.
  rewrite wait_run, Hres, Hcode.
  destruct (op_warnings operation) as [|w ws]; [congruence|].
  cbv zeta. cbv beta iota delta [out_result out_trace].
  set (label := or_default verbose_name "operation").
  change (stderr_of (Stderr (warnings_header label)
                     :: map (fun w0 => Stderr (warning_line w0)) (w :: ws)))
    with (warnings_header label
          :: stderr_of (map (fun w0 => Stderr (warning_line w0)) (w :: ws))).
  rewrite <- (map_map warning_line Stderr), stderr_of_map_Stderr.
  split; [reflexivity|]. split; [reflexivity|]. split; [reflexivity|].
  simpl. now rewrite length_map.
Qed.

Lemma wait_warnings_returns_result_witness :
  (wait_for_extended_operation op_warned (Some "instance start") None
     loaded_state).(out_result) = inr (PyStr "done")
  /\ stderr_of (wait_for_extended_operation op_warned (Some "instance start")
                  None loaded_state).(out_trace) =
       ["Warnings during instance start:" ++ nl;
        " - DEPRECATED_RESOURCE_USED: The image is deprecated."].
Proof.
  pose proof (@wait_warnings_returns_result unit op_warned
                (Some "instance start") None loaded_state (PyStr "done")
                eq_refl ltac:(discriminate) eq_refl) as H.
  split; [exact (proj1 H) | exact (proj1 (proj2 (proj2 H)))].
Defined.




(** ** [disk_from_image] *)

Lemma fits_int64_iff (v : Z) :
  fits_int64 v = true <-> (- 2 ^ 63 <= v <= 2 ^ 63 - 1)%Z.
Proof.
  unfold fits_int64, int64_min, int64_max.
  rewrite andb_true_iff, !Z.leb_le. reflexivity.
Qed.

(** C8, as stated, fails: a size that does not fit the 64-bit field makes
    the assignment of [disk_size_gb] raise, and no disk is returned. *)
Lemma disk_from_image_large_size_raises :
  disk_from_image "pd-balanced" (2 ^ 63) true "debian-11" (Some true)
  = inl (SdkError "ValueError")
  /\ forall disk,
       disk_from_image "pd-balanced" (2 ^ 63) true "debian-11" (Some true)
       <> inr disk.
Proof. split; [reflexivity | discriminate]. Qed.

(** C8, amended.  [disk_from_image] is a function of its five arguments
    alone.  When [disk_size_gb] fits a signed 64-bit integer it returns a
    disk whose initialize-params have exactly the given source image, size
    and disk type, with the given [boot] and [auto_delete] flags,
    [auto_delete] being [True] when omitted; otherwise it raises
    [ValueError] and returns no disk.  In particular the call with
    ["pd-balanced"], 10, [True], ["debian-11"], [True] sets all five fields
    as given. *)
Theorem disk_from_image_fields (disk_type : string) (disk_size_gb : Z)
    (boot : bool) (source_image : string) (auto_delete : option bool) :
  let call :=
    disk_from_image disk_type disk_size_gb boot source_image auto_delete in
  let disk :=
    mkAttachedDisk
      (Some (mkInitializeParams (Some source_image) (Some disk_size_gb)
               (Some disk_type)))
      (Some (match auto_delete with Some b => b | None => true end))
      (Some boot) in
  ((- 2 ^ 63 <= disk_size_gb <= 2 ^ 63 - 1)%Z -> call = inr disk)
  /\ ((disk_size_gb < - 2 ^ 63 \/ 2 ^ 63 - 1 < disk_size_gb)%Z ->
      call = inl (SdkError "ValueError"))
  /\ (forall d, call = inr d ->
        d = disk /\ (- 2 ^ 63 <= disk_size_gb <= 2 ^ 63 - 1)%Z)
  /\ disk_from_image "pd-balanced" 10 true "debian-11" (Some true) =
       inr (mkAttachedDisk
              (Some (mkInitializeParams (Some "debian-11") (Some 10%Z)
                       (Some "pd-balanced")))
              (Some true) (Some true)).
Proof.
  intros call disk. subst call disk.
  unfold disk_from_image, int64_field.
  destruct (fits_int64 disk_size_gb) eqn:E.
  - apply fits_int64_iff in E.
    split; [reflexivity|]. split; [intros H; exfalso; lia|].
    split; [|reflexivity].
    intros d [= <-]. now split.
  - assert (~ (- 2 ^ 63 <= disk_size_gb <= 2 ^ 63 - 1)%Z) as Hn.
    { intros H. apply fits_int64_iff in H. congruence. }
    split; [intros H; now elim Hn|]. split; [reflexivity|].
    split; [discriminate | reflexivity].
Qed.

Lemma disk_from_image_fields_witness :
  (- 2 ^ 63 <= 10 <= 2 ^ 63 - 1)%Z
  /\ disk_from_image "zones/us-central1-c/diskTypes/pd-balanced" 10 true
       "projects/debian-cloud/global/images/debian-11-bullseye-v20230615"
       None
     = inr (mkAttachedDisk
              (Some (mkInitializeParams
                       (Some "projects/debian-cloud/global/images/debian-11-bullseye-v20230615")
                       (Some 10%Z)
                       (Some "zones/us-central1-c/diskTypes/pd-balanced")))
              (Some true) (Some true)).
Proof.
  assert (H : (- 2 ^ 63 <= 10 <= 2 ^ 63 - 1)%Z) by (split; discriminate).
  split; [exact H|].
  exact (proj1 (disk_from_image_fields
                  "zones/us-central1-c/diskTypes/pd-balanced" 10 true
                  "projects/debian-cloud/global/images/debian-11-bullseye-v20230615"
                  None) H).
Defined.

(** ** [create_instance]: what is submitted *)

Lemma inserted_app (t u : list event) :
  inserted (t ++ u)%list = (inserted t ++ inserted u)%list.
Proof. apply flat_map_app. Qed.

Lemma warnings_of_app (t u : list event) :
  warnings_of (t ++ u)%list = (warnings_of t ++ warnings_of u)%list.
Proof. apply flat_map_app. Qed.

Lemma inserted_map_Stderr (l : list string) : inserted (map Stderr l) = [].
Proof. induction l as [|x l IH]; simpl; auto. Qed.

Lemma warnings_of_map_Stderr (l : list string) :
  warnings_of (map Stderr l) = [].
Proof. induction l as [|x l IH]; simpl; auto. Qed.

(** The waiter only prints to the error stream and leaves the state as it
    found it. *)
Lemma wait_trace_stderr (World : Type) (operation : ExtendedOperation)
    (verbose_name : option string) (timeout : option Z) (s : state World) :
  let o := wait_for_extended_operation operation verbose_name timeout s in
  exists lines, o.(out_trace) = map Stderr lines /\ o.(out_state) = s.
Proof.
  rewrite wait_run.
  destruct (op_result operation (or_default timeout 300%Z)) as [e|r].
  - now exists [].
  - cbv zeta. destruct (truthy (op_error_code operation)).
    + eexists [_; _]. split; reflexivity.
    + destruct (op_warnings operation) as [|w ws].
      * now exists [].
      * exists (warnings_header (or_default verbose_name "operation")
                :: map warning_line (w :: ws)).
        cbn [out_trace out_state map]. now rewrite map_map.
Qed.

Lemma out_trace_bind (World A B : Type) (m : M World A) (f : A -> M World B)
    (s : state World) :
  (bind m f s).(out_trace) =
    ((m s).(out_trace)
     ++ match (m s).(out_result) with
        | inl _ => []
        | inr a => (f a (m s).(out_state)).(out_trace)
        end)%list.
Proof.
  unfold bind. destruct (out_result (m s)); cbn [out_trace];
    [now rewrite app_nil_r | reflexivity].
Qed.

Lemma out_trace_call (World A : Type) (e : event)
    (f : World -> World * (exn + A)) (s : state World) :
  (call e f s).(out_trace) = [e].
Proof. unfold call. now destruct (f (st_world s)). Qed.

(** What follows the call to [insert]: wait, print, fetch. *)
Lemma after_insert_quiet (World : Type) (client : InstancesClient World)
    (project_id zone instance_name : string) (operation : ExtendedOperation)
    (s : state World) :
  let t :=
    ((wait_for_extended_operation operation (Some "instance creation") None ;;
      emit (Stdout ("Instance " ++ instance_name ++ " created.")) ;;
      call (CallGet project_id zone instance_name)
        (client.(get) project_id zone instance_name)) s).(out_trace) in
  inserted t = [] /\ warnings_of t = [].
Proof.
  cbv zeta. rewrite out_trace_bind.
  destruct (wait_trace_stderr operation (Some "instance creation") None s)
    as (lines & Ht & Hs).
  rewrite Ht, inserted_app, warnings_of_app.
  rewrite inserted_map_Stderr, warnings_of_map_Stderr.
  destruct (out_result
              (wait_for_extended_operation operation
                 (Some "instance creation") None s)) as [e|r].
  - split; reflexivity.
  - rewrite out_trace_bind. cbn [emit out_trace out_result out_state].
    rewrite out_trace_call. split; reflexivity.
Qed.

Lemma emit_ret_run (World A : Type) (e : event) (a : A) (s : state World) :
  (emit e ;; ret a) s = mkOutcome s [e] (inr a).
Proof. reflexivity. Qed.

(** The trace of a call to [create_instance]: the deprecation warning when
    [preemptible] holds, the progress line, the request with the instance
    built, and then nothing that warns or submits. *)
Lemma create_instance_submits (World : Type) (client : InstancesClient World)
    (defaults : create_instance_defaults)
    (project_id zone instance_name : string) (kw : create_instance_kwargs)
    (s : state World) :
  exists rest,
    (create_instance client defaults project_id zone instance_name kw
       s).(out_trace) =
      ((if or_default kw.(kw_preemptible) defaults.(d_preemptible)
        then [preemptible_warning] else [])
       ++ Stdout ("Creating the " ++ instance_name ++ " instance in " ++ zone
                  ++ "...")
       :: CallInsert
            (mkInsertInstanceRequest (Some zone) (Some project_id)
               (Some (built defaults zone instance_name kw)))
       :: rest)%list
    /\ inserted rest = [] /\ warnings_of rest = [].
Proof.
  unfold create_instance, built, instance_of, network_interface_of.
  cbv zeta.
  destruct (or_default (kw_preemptible kw) (d_preemptible defaults));
    rewrite out_trace_bind; cbv iota;
    rewrite ?emit_ret_run; cbn [ret out_trace out_result out_state];
    rewrite out_trace_bind; cbn [emit out_trace out_result out_state];
    rewrite out_trace_bind, out_trace_call;
    (eexists; split; [reflexivity|]);
    (destruct (out_result (call _ _ _)) as [e|operation];
     [split; reflexivity | apply after_insert_quiet]).
Qed.

Lemma built_instances_app (t u : list event) :
  built_instances (t ++ u)%list = (built_instances t ++ built_instances u)%list.
Proof. unfold built_instances. now rewrite inserted_app, flat_map_app. Qed.

(** A call submits one instance, the one built from its arguments. *)
Lemma create_instance_built (World : Type) (client : InstancesClient World)
    (defaults : create_instance_defaults)
    (project_id zone instance_name : string) (kw : create_instance_kwargs)
    (s : state World) :
  built_instances
    (create_instance client defaults project_id zone instance_name kw
       s).(out_trace)
  = [built defaults zone instance_name kw].
Proof.
  destruct (create_instance_submits client defaults project_id zone
              instance_name kw s) as (rest & -> & Hi & _).
  rewrite built_instances_app.
  change (?a :: ?b :: rest) with ([a; b] ++ rest)%list.
  rewrite built_instances_app.
  unfold built_instances at 3. rewrite Hi.
  now destruct (or_default (kw_preemptible kw) (d_preemptible defaults)).
Qed.

(** A call warns once when [preemptible] holds, and not otherwise. *)
Lemma create_instance_warnings (World : Type) (client : InstancesClient World)
    (defaults : create_instance_defaults)
    (project_id zone instance_name : string) (kw : create_instance_kwargs)
    (s : state World) :
  warnings_of
    (create_instance client defaults project_id zone instance_name kw
       s).(out_trace)
  = if or_default kw.(kw_preemptible) defaults.(d_preemptible)
    then [("DeprecationWarning",
           "Preemptible VMs are being replaced by Spot VMs.")]
    else [].
Proof.
  destruct (create_instance_submits client defaults project_id zone
              instance_name kw s) as (rest & -> & _ & Hw).
  rewrite warnings_of_app.
  change (?a :: ?b :: rest) with ([a; b] ++ rest)%list.
  rewrite warnings_of_app, Hw.
  now destruct (or_default (kw_preemptible kw) (d_preemptible defaults)).
Qed.

(** The network interface, field by field. *)
Lemma network_interface_of_fields (network_link : string)
    (subnetwork_link internal_ip : option string) (external_access : bool)
    (external_ipv4 : option string) :
  network_interface_of network_link subnetwork_link internal_ip
    external_access external_ipv4
  = mkNetworkInterface (Some network_link) (if_truthy subnetwork_link)
      (if_truthy internal_ip)
      (if external_access
       then [mkAccessConfig (Some "ONE_TO_ONE_NAT") (Some "External NAT")
               (Some "PREMIUM") (if_truthy external_ipv4)]
       else []).
Proof.
  unfold network_interface_of, when_str, if_truthy, truthy_str, truthy.
  destruct external_access;
    (destruct subnetwork_link as [a|]; [destruct (String.eqb a "")|]);
    (destruct internal_ip as [b|]; [destruct (String.eqb b "")|]);
    (destruct external_ipv4 as [c|]; [destruct (String.eqb c "")|]);
    reflexivity.
Qed.

(** The instance, field by field. *)
Lemma instance_of_fields (zone instance_name : string) (disks : loc)
    (machine_type : string) (network_interface : NetworkInterface)
    (accelerators : option (list AcceleratorConfig))
    (preemptible spot : bool) (instance_termination_action : string)
    (custom_hostname : option string) (delete_protection : bool) :
  instance_of zone instance_name disks machine_type network_interface
    accelerators preemptible spot instance_termination_action
    custom_hostname delete_protection
  = mkInstance [network_interface] (Some instance_name) (Some disks)
      (Some (if re_match machine_type_re machine_type then machine_type
             else "zones/" ++ zone ++ "/machineTypes/" ++ machine_type))
      (if truthy_list accelerators then or_default accelerators [] else [])
      (if spot then
         Some (mkScheduling None (Some "SPOT")
                 (Some instance_termination_action))
       else if preemptible then Some (mkScheduling (Some true) None None)
       else None)
      custom_hostname
      (if delete_protection then Some true else None).
Proof.
  unfold instance_of.
  destruct (re_match machine_type_re machine_type), accelerators as [[|a l]|],
    preemptible, spot, custom_hostname, delete_protection; reflexivity.
Qed.

Lemma built_fields (defaults : create_instance_defaults)
    (zone instance_name : string) (kw : create_instance_kwargs) :
  built defaults zone instance_name kw
  = let machine_type :=
      or_default kw.(kw_machine_type) defaults.(d_machine_type) in
    let external_ipv4 :=
      or_else kw.(kw_external_ipv4) defaults.(d_external_ipv4) in
    let accelerators :=
      or_else kw.(kw_accelerators) defaults.(d_accelerators) in
    mkInstance
      [mkNetworkInterface
         (Some (or_default kw.(kw_network_link) defaults.(d_network_link)))
         (if_truthy
            (or_else kw.(kw_subnetwork_link) defaults.(d_subnetwork_link)))
         (if_truthy (or_else kw.(kw_internal_ip) defaults.(d_internal_ip)))
         (if or_default kw.(kw_external_access) defaults.(d_external_access)
          then [mkAccessConfig (Some "ONE_TO_ONE_NAT") (Some "External NAT")
                  (Some "PREMIUM") (if_truthy external_ipv4)]
          else [])]
      (Some instance_name)
      (Some (or_default kw.(kw_disks) defaults.(d_disks)))
      (Some (if re_match machine_type_re machine_type then machine_type
             else "zones/" ++ zone ++ "/machineTypes/" ++ machine_type))
      (if truthy_list accelerators then or_default accelerators [] else [])
      (if or_default kw.(kw_spot) defaults.(d_spot) then
         Some (mkScheduling None (Some "SPOT")
                 (Some (or_default kw.(kw_instance_termination_action)
                          defaults.(d_instance_termination_action))))
       else if or_default kw.(kw_preemptible) defaults.(d_preemptible)
       then Some (mkScheduling (Some true) None None)
       else None)
      (or_else kw.(kw_custom_hostname) defaults.(d_custom_hostname))
      (if or_default kw.(kw_delete_protection) defaults.(d_delete_protection)
       then Some true else None).
Proof.
  unfold built. now rewrite instance_of_fields, network_interface_of_fields.
Qed.

(** C4.  The machine type of the instance [create_instance] submits is the
    supplied string itself when it matches
    [^zones/[a-z\d\-]+/machineTypes/[a-z\d\-]+$], and
    [zones/<zone>/machineTypes/<supplied string>] when it does not; so
    ["n1-standard-1"] in zone ["us-central1-c"] gives
    ["zones/us-central1-c/machineTypes/n1-standard-1"]. *)
Theorem machine_type_normalization (World : Type)
    (client : InstancesClient World) (defaults : create_instance_defaults)
    (project_id zone instance_name : string) (kw : create_instance_kwargs)
    (s : state World) :
  let machine_type :=
    or_default kw.(kw_machine_type) defaults.(d_machine_type) in
  exists instance,
    built_instances
      (create_instance client defaults project_id zone instance_name kw
         s).(out_trace) = [instance]
    /\ (re_match machine_type_re machine_type = true ->
        instance.(i_machine_type) = Some machine_type)
    /\ (re_match machine_type_re machine_type = false ->
        instance.(i_machine_type) =
          Some ("zones/" ++ zone ++ "/machineTypes/" ++ machine_type))
    /\ (machine_type = "n1-standard-1" -> zone = "us-central1-c" ->
        instance.(i_machine_type) =
          Some "zones/us-central1-c/machineTypes/n1-standard-1").
Proof.
  intros machine_type.
  rewrite create_instance_built. eexists. split; [reflexivity|].
  rewrite built_fields. cbv zeta. cbn [i_machine_type].
  fold machine_type. clearbody machine_type.
  split; [intros ->; reflexivity|].
  split; [intros ->; reflexivity|].
  intros -> ->. reflexivity.
Qed.

Lemma machine_type_normalization_witness :
  exists instance,
    built_instances
      (create_instance sample_client loaded_defaults "sanguine-line-391106"
         "us-central1-c" "my-instance"
         (with_machine_type "n1-standard-1" no_kwargs)
         loaded_state).(out_trace) = [instance]
    /\ instance.(i_machine_type) =
         Some "zones/us-central1-c/machineTypes/n1-standard-1".
Proof.
  destruct (@machine_type_normalization unit sample_client loaded_defaults
              "sanguine-line-391106" "us-central1-c" "my-instance"
              (with_machine_type "n1-standard-1" no_kwargs) loaded_state)
    as (instance & Hb & _ & _ & Hx).
  exists instance. split; [exact Hb | exact (Hx eq_refl eq_refl)].
Defined.

(** C5.  With [preemptible=True] and [spot] false, the scheduling object of
    the submitted instance has [preemptible] set to [True] and the call
    emits exactly one warning, a [DeprecationWarning].  With [spot=True],
    the provisioning model is ["SPOT"] and the termination action is the
    [instance_termination_action] argument, ["STOP"] when omitted. *)
Theorem scheduling_flags (World : Type) (client : InstancesClient World)
    (h : heap) (project_id zone instance_name : string)
    (kw : create_instance_kwargs) (s : state World) :
  let defaults := snd (def_create_instance h) in
  let t :=
    (create_instance client defaults project_id zone instance_name kw
       s).(out_trace) in
  exists instance,
    built_instances t = [instance]
    /\ (kw.(kw_preemptible) = Some true ->
        kw.(kw_spot) = Some false \/ kw.(kw_spot) = None ->
        instance.(i_scheduling) = Some (mkScheduling (Some true) None None)
        /\ warnings_of t =
             [("DeprecationWarning",
               "Preemptible VMs are being replaced by Spot VMs.")])
    /\ (kw.(kw_spot) = Some true ->
        (forall action,
            kw.(kw_instance_termination_action) = Some action ->
            instance.(i_scheduling) =
              Some (mkScheduling None (Some "SPOT") (Some action)))
        /\ (kw.(kw_instance_termination_action) = None ->
            instance.(i_scheduling) =
              Some (mkScheduling None (Some "SPOT") (Some "STOP")))).
Proof.
  intros defaults t. subst t.
  rewrite create_instance_built, create_instance_warnings.
  eexists. split; [reflexivity|].
  rewrite built_fields. cbv zeta. cbn [i_scheduling].
  subst defaults. cbn [def_create_instance alloc snd d_spot d_preemptible
                       d_instance_termination_action].
  split.
  - intros -> [-> | ->]; split; reflexivity.
  - intros ->. split.
    + intros action ->. reflexivity.
    + intros ->. reflexivity.
Qed.

Lemma scheduling_flags_witness :
  (exists instance,
      built_instances
        (create_instance sample_client loaded_defaults "sanguine-line-391106"
           "us-central1-c" "my-instance" (with_preemptible true no_kwargs)
           loaded_state).(out_trace) = [instance]
      /\ instance.(i_scheduling) = Some (mkScheduling (Some true) None None))
  /\ (exists instance,
         built_instances
           (create_instance sample_client loaded_defaults
              "sanguine-line-391106" "us-central1-c" "my-instance"
              (with_spot true no_kwargs) loaded_state).(out_trace)
         = [instance]
         /\ instance.(i_scheduling) =
              Some (mkScheduling None (Some "SPOT") (Some "STOP"))).
Proof.
  split.
  - destruct (@scheduling_flags unit sample_client [] "sanguine-line-391106"
                "us-central1-c" "my-instance"
                (with_preemptible true no_kwargs) loaded_state)
      as (instance & Hb & Hp & _).
    exists instance.
    split; [exact Hb | exact (proj1 (Hp eq_refl (or_intror eq_refl)))].
  - destruct (@scheduling_flags unit sample_client [] "sanguine-line-391106"
                "us-central1-c" "my-instance" (with_spot true no_kwargs)
                loaded_state) as (instance & Hb & _ & Hs).
    exists instance. split; [exact Hb | exact (proj2 (Hs eq_refl) eq_refl)].
Defined.

(** C6.  With both [preemptible=True] and [spot=True] the scheduling object
    of the submitted instance is the one the spot branch constructs:
    provisioning model ["SPOT"], the termination action, and [preemptible]
    unset.  The deprecation warning is emitted all the same. *)
Theorem scheduling_last_write_wins (World : Type)
    (client : InstancesClient World) (h : heap)
    (project_id zone instance_name : string) (kw : create_instance_kwargs)
    (s : state World) :
  let defaults := snd (def_create_instance h) in
  let t :=
    (create_instance client defaults project_id zone instance_name kw
       s).(out_trace) in
  kw.(kw_preemptible) = Some true ->
  kw.(kw_spot) = Some true ->
  exists instance,
    built_instances t = [instance]
    /\ instance.(i_scheduling) =
         Some (set_instance_termination_action
                 (or_default kw.(kw_instance_termination_action) "STOP")
                 (set_provisioning_model "SPOT" new_Scheduling))
    /\ instance.(i_scheduling) =
         Some (mkScheduling None (Some "SPOT")
                 (Some (or_default kw.(kw_instance_termination_action)
                          "STOP")))
    /\ warnings_of t =
         [("DeprecationWarning",
           "Preemptible VMs are being replaced by Spot VMs.")].
Proof.
  intros defaults t Hp Hs. subst t.
  rewrite create_instance_built, create_instance_warnings.
  eexists. split; [reflexivity|].
  rewrite built_fields. cbv zeta. cbn [i_scheduling].
  subst defaults. cbn [def_create_instance alloc snd d_spot d_preemptible
                       d_instance_termination_action].
  rewrite Hp, Hs. repeat split; reflexivity.
Qed.

Lemma scheduling_last_write_wins_witness :
  exists instance,
    built_instances
      (create_instance sample_client loaded_defaults "sanguine-line-391106"
         "us-central1-c" "my-instance"
         (with_spot true (with_preemptible true no_kwargs))
         loaded_state).(out_trace) = [instance]
    /\ instance.(i_scheduling) =
         Some (mkScheduling None (Some "SPOT") (Some "STOP")).
Proof.
  destruct (@scheduling_last_write_wins unit sample_client []
              "sanguine-line-391106" "us-central1-c" "my-instance"
              (with_spot true (with_preemptible true no_kwargs))
              loaded_state eq_refl eq_refl) as (instance & Hb & _ & Hs & _).
  exists instance. split; [exact Hb | exact Hs].
Defined.

(** C7.  With [external_access=True] the network interface of the submitted
    instance carries exactly one access config, of type [ONE_TO_ONE_NAT],
    named ["External NAT"], on the ["PREMIUM"] tier; its NAT address is the
    [external_ipv4] argument when an address is supplied, and unset when
    [external_ipv4] is [None].  Without [external_access] there is no
    access config. *)
Theorem external_access_config (World : Type)
    (client : InstancesClient World) (h : heap)
    (project_id zone instance_name : string) (kw : create_instance_kwargs)
    (s : state World) :
  let defaults := snd (def_create_instance h) in
  let t :=
    (create_instance client defaults project_id zone instance_name kw
       s).(out_trace) in
  exists instance network_interface,
    built_instances t = [instance]
    /\ instance.(i_network_interfaces) = [network_interface]
    /\ (kw.(kw_external_access) = Some true ->
        (forall ip,
            kw.(kw_external_ipv4) = Some ip -> ip <> "" ->
            network_interface.(ni_access_configs) =
              [mkAccessConfig (Some "ONE_TO_ONE_NAT") (Some "External NAT")
                 (Some "PREMIUM") (Some ip)])
        /\ (kw.(kw_external_ipv4) = Some "1.2.3.4" ->
            network_interface.(ni_access_configs) =
              [mkAccessConfig (Some "ONE_TO_ONE_NAT") (Some "External NAT")
                 (Some "PREMIUM") (Some "1.2.3.4")])
        /\ (kw.(kw_external_ipv4) = None ->
            network_interface.(ni_access_configs) =
              [mkAccessConfig (Some "ONE_TO_ONE_NAT") (Some "External NAT")
                 (Some "PREMIUM") None]))
    /\ (kw.(kw_external_access) = Some false
        \/ kw.(kw_external_access) = None ->
        network_interface.(ni_access_configs) = []).
Proof.
  intros defaults t. subst t.
  rewrite create_instance_built.
  eexists. eexists. split; [reflexivity|].
  rewrite built_fields. cbv zeta. cbn [i_network_interfaces].
  split; [reflexivity|]. cbn [ni_access_configs].
  subst defaults.
  cbn [def_create_instance alloc snd d_external_access d_external_ipv4].
  split.
  - intros ->. cbn [or_default]. repeat split.
    + intros ip -> Hip. unfold or_else, if_truthy, truthy_str.
      apply String.eqb_neq in Hip. now rewrite Hip.
    + intros ->. reflexivity.
    + intros ->. reflexivity.
  - intros [-> | ->]; reflexivity.
Qed.

Lemma external_access_config_witness :
  exists instance network_interface,
    built_instances
      (create_instance sample_client loaded_defaults "sanguine-line-391106"
         "us-central1-c" "my-instance"
         (with_external_ipv4 (Some "1.2.3.4")
            (with_external_access true no_kwargs))
         loaded_state).(out_trace) = [instance]
    /\ instance.(i_network_interfaces) = [network_interface]
    /\ network_interface.(ni_access_configs) =
         [mkAccessConfig (Some "ONE_TO_ONE_NAT") (Some "External NAT")
            (Some "PREMIUM") (Some "1.2.3.4")].
Proof.
  destruct (@external_access_config unit sample_client []
              "sanguine-line-391106" "us-central1-c" "my-instance"
              (with_external_ipv4 (Some "1.2.3.4")
                 (with_external_access true no_kwargs)) loaded_state)
    as (instance & ni & Hb & Hn & Ht & _).
  exists instance, ni. split; [exact Hb|]. split; [exact Hn|].
  apply (proj1 (Ht eq_refl) "1.2.3.4" eq_refl). discriminate.
Defined.

(** C10.  An empty string for [subnetwork_link], [internal_ip] or
    [external_ipv4] gives the very run that [None] gives: each of the three
    is guarded by a truthiness test.  In particular the submitted network
    interface then has no subnetwork, no internal IP, and, with
    [external_access=True], one access config without NAT address. *)
Theorem empty_string_as_absent (World : Type)
    (client : InstancesClient World) (h : heap)
    (project_id zone instance_name : string) (kw : create_instance_kwargs)
    (s : state World) :
  let defaults := snd (def_create_instance h) in
  let run kw :=
    create_instance client defaults project_id zone instance_name kw s in
  let interfaces kw :=
    flat_map i_network_interfaces (built_instances (run kw).(out_trace)) in
  run (with_subnetwork_link (Some "") kw) = run (with_subnetwork_link None kw)
  /\ run (with_internal_ip (Some "") kw) = run (with_internal_ip None kw)
  /\ run (with_external_ipv4 (Some "") kw) = run (with_external_ipv4 None kw)
  /\ map ni_subnetwork (interfaces (with_subnetwork_link (Some "") kw))
     = [None]
  /\ map ni_network_i_p (interfaces (with_internal_ip (Some "") kw)) = [None]
  /\ map ni_access_configs
       (interfaces (with_external_access true
                      (with_external_ipv4 (Some "") kw)))
     = [[mkAccessConfig (Some "ONE_TO_ONE_NAT") (Some "External NAT")
           (Some "PREMIUM") None]].
Proof.
  intros defaults run interfaces. subst interfaces run.
  split; [reflexivity|]. split; [reflexivity|]. split; [reflexivity|].
  cbv beta. rewrite !create_instance_built, !built_fields.
  repeat split; reflexivity.
Qed.

(** For comparison, [custom_hostname] is guarded by [is not None]: there an
    empty string is assigned. *)
Lemma empty_hostname_is_set (World : Type) (client : InstancesClient World)
    (h : heap) (project_id zone instance_name : string)
    (kw : create_instance_kwargs) (s : state World) :
  map i_hostname
    (built_instances
       (create_instance client (snd (def_create_instance h)) project_id zone
          instance_name (with_custom_hostname (Some "") kw) s).(out_trace))
  = [Some ""].
Proof. rewrite create_instance_built, built_fields. reflexivity. Qed.

(** ** The store *)

Lemma deref_alloc (h : heap) (v : list AttachedDisk) :
  deref (fst (alloc h v)) (snd (alloc h v)) = Some v.
Proof.
  unfold deref, alloc; cbn [fst snd].
  rewrite nth_error_app2 by apply Nat.le_refl.
  now rewrite Nat.sub_diag.
Qed.

Lemma deref_store (h : heap) (l : loc) (v : list AttachedDisk) :
  l < length h -> deref (store h l v) l = Some v.
Proof.
  revert l. induction h as [|x h IH]; intros [|l] Hl; simpl in *;
    try lia; [reflexivity|].
  apply IH. lia.
Qed.

Lemma deref_list_append (h : heap) (l : loc) (v : list AttachedDisk)
    (d : AttachedDisk) :
  deref h l = Some v -> deref (list_append h l d) l = Some (v ++ [d])%list.
Proof.
  intros Hv. unfold list_append. rewrite Hv. apply deref_store.
  apply nth_error_Some. unfold deref in Hv. congruence.
Qed.

Lemma keeps_heap_bind (World A B : Type) (m : M World A)
    (f : A -> M World B) :
  keeps_heap m -> (forall a, keeps_heap (f a)) -> keeps_heap (bind m f).
Proof.
  intros Hm Hf s. unfold bind.
  destruct (out_result (m s)) as [e|a] eqn:E; cbn [out_state].
  - apply Hm.
  - rewrite Hf. apply Hm.
Qed.

Lemma keeps_heap_emit (World : Type) (e : event) :
  keeps_heap (@emit World e).
Proof. intros s. reflexivity. Qed.

Lemma keeps_heap_ret (World A : Type) (a : A) : keeps_heap (@ret World A a).
Proof. intros s. reflexivity. Qed.

Lemma keeps_heap_call (World A : Type) (e : event)
    (f : World -> World * (exn + A)) :
  keeps_heap (call e f).
Proof. intros s. unfold call. now destruct (f (st_world s)). Qed.

Lemma keeps_heap_wait (World : Type) (operation : ExtendedOperation)
    (verbose_name : option string) (timeout : option Z) :
  keeps_heap
    (@wait_for_extended_operation World operation verbose_name timeout).
Proof.
  intros s.
  destruct (wait_trace_stderr operation verbose_name timeout s)
    as (lines & _ & Hs).
  now rewrite Hs.
Qed.

Lemma keeps_heap_create_instance (World : Type)
    (client : InstancesClient World) (defaults : create_instance_defaults)
    (project_id zone instance_name : string) (kw : create_instance_kwargs) :
  keeps_heap
    (create_instance client defaults project_id zone instance_name kw).
Proof.
  unfold create_instance. cbv zeta.
  apply keeps_heap_bind.
  - destruct (or_default (kw_preemptible kw) (d_preemptible defaults)).
    + apply keeps_heap_bind; [apply keeps_heap_emit|].
      intros _. apply keeps_heap_ret.
    + apply keeps_heap_ret.
  - intros instance.
    apply keeps_heap_bind; [apply keeps_heap_emit|]. intros _.
    apply keeps_heap_bind; [apply keeps_heap_call|]. intros operation.
    apply keeps_heap_bind; [apply keeps_heap_wait|]. intros _.
    apply keeps_heap_bind; [apply keeps_heap_emit|]. intros _.
    apply keeps_heap_call.
Qed.

(** C9.  The [def] statement of [create_instance] constructs one list
    object, holding one boot disk of type
    ["zones/us-central1-c/diskTypes/pd-balanced"], 10 GB, from the
    debian-11 image.  Every call without [disks] assigns a reference to
    that object to [instance.disks] and constructs no list of its own; the
    object is mutable, so a disk appended through the reference shows in
    the list every later call attaches. *)
Theorem default_disks_shared (h : heap) :
  let h' := fst (def_create_instance h) in
  let defaults := snd (def_create_instance h) in
  let default_disk :=
    mkAttachedDisk
      (Some (mkInitializeParams
               (Some "projects/debian-cloud/global/images/debian-11-bullseye-v20230615")
               (Some 10%Z)
               (Some "zones/us-central1-c/diskTypes/pd-balanced")))
      (Some true) (Some true) in
  length h' = S (length h)
  /\ deref h' defaults.(d_disks) = Some [default_disk]
  /\ (forall (World : Type) (client : InstancesClient World)
        (project_id zone instance_name : string)
        (kw : create_instance_kwargs) (s : state World),
         kw.(kw_disks) = None ->
         let o :=
           create_instance client defaults project_id zone instance_name kw
             s in
         map i_disks (built_instances o.(out_trace))
         = [Some defaults.(d_disks)]
         /\ o.(out_state).(st_heap) = s.(st_heap))
  /\ (forall d,
         deref (list_append h' defaults.(d_disks) d) defaults.(d_disks)
         = Some [default_disk; d]).
Proof.
  intros h' defaults default_disk.
  assert (Hd : deref h' (d_disks defaults) = Some [default_disk])
    by apply deref_alloc.
  split; [|split; [exact Hd|split]].
  - subst h'. cbn [def_create_instance alloc fst].
    rewrite length_app. cbn [length]. lia.
  - intros World client project_id zone instance_name kw s Hkw o. subst o.
    split; [|apply keeps_heap_create_instance].
    rewrite create_instance_built, built_fields. cbv zeta.
    cbn [map i_disks]. now rewrite Hkw.
  - intros d. now rewrite (deref_list_append _ _ d Hd).
Qed.

Lemma default_disks_shared_witness :
  map i_disks
    (built_instances
       (create_instance sample_client loaded_defaults "sanguine-line-391106"
          "us-central1-c" "my-instance" no_kwargs loaded_state).(out_trace))
  = [Some loaded_defaults.(d_disks)]
  /\ map i_disks
       (built_instances
          (create_instance sample_client loaded_defaults "another-project"
             "europe-west1-b" "other-instance" (with_spot true no_kwargs)
             (mkState (list_append loaded_heap loaded_defaults.(d_disks)
                         new_AttachedDisk) tt)).(out_trace))
     = [Some loaded_defaults.(d_disks)].
Proof.
  split.
  - exact (proj1 (proj1 (proj2 (proj2 (default_disks_shared [])))
             unit sample_client "sanguine-line-391106" "us-central1-c"
             "my-instance" no_kwargs loaded_state eq_refl)).
  - exact (proj1 (proj1 (proj2 (proj2 (default_disks_shared [])))
             unit sample_client "another-project" "europe-west1-b"
             "other-instance" (with_spot true no_kwargs)
             (mkState (list_append loaded_heap loaded_defaults.(d_disks)
                         new_AttachedDisk) tt) eq_refl)).
Defined.

(** * Further properties *)

(** ** The waiter: outcome and effects *)

Lemma wait_result (World : Type) (operation : ExtendedOperation)
    (verbose_name : option string) (timeout : option Z) (s : state World) :
  (wait_for_extended_operation operation verbose_name timeout s).(out_result)
  = match operation.(op_result) (or_default timeout 300%Z) with
    | inl e => inl e
    | inr result =>
        if truthy operation.(op_error_code) then
          inl (or_default operation.(op_exception)
                 (RuntimeError operation.(op_error_message)))
        else inr result
    end.
Proof.
  rewrite wait_run.
  destruct (op_result operation (or_default timeout 300%Z)) as [e|r];
    [reflexivity|].
  cbv zeta. destruct (truthy (op_error_code operation)); [reflexivity|].
  now destruct (op_warnings operation).
Qed.

Lemma wait_succeeds (World : Type) (operation : ExtendedOperation)
    (verbose_name : option string) (timeout : option Z) (s : state World) :
  operation_succeeds operation (or_default timeout 300%Z)
  = match (wait_for_extended_operation operation verbose_name timeout
             s).(out_result) with
    | inl _ => false
    | inr _ => true
    end.
Proof.
  rewrite wait_result. unfold operation_succeeds.
  destruct (op_result operation (or_default timeout 300%Z)) as [e|r];
    [reflexivity|].
  now destruct (truthy (op_error_code operation)).
Qed.

(** X1.  The waiter returns exactly when [operation.result] returns and the
    error code is falsy, and then it returns what [operation.result]
    returned; neither the error message nor [operation.exception()] nor
    the warnings have a say.  [start.py] has the same waiter. *)
Theorem wait_returns_iff (World : Type) (operation : ExtendedOperation)
    (verbose_name : option string) (timeout : option Z) (s : state World)
    (result : pyval) :
  let o := wait_for_extended_operation operation verbose_name timeout s in
  Start.wait_for_extended_operation operation verbose_name timeout s = o
  /\ (o.(out_result) = inr result <->
      operation.(op_result) (or_default timeout 300%Z) = inr result
      /\ truthy operation.(op_error_code) = false).
Proof.
  intros o. subst o. split; [reflexivity|].
  rewrite wait_result.
  destruct (op_result operation (or_default timeout 300%Z)) as [e|r].
  - split; [discriminate | intros [H _]; discriminate H].
  - destruct (truthy (op_error_code operation)).
    + split; [discriminate | intros [_ H]; discriminate H].
    + split; [intros H; now split | now intros [H _]].
Qed.

(** X2.  An exception out of the waiter is either the one [operation.result]
    raised, with nothing printed, or, after [operation.result] returned
    with a truthy error code, [operation.exception()] (or
    [RuntimeError(error_message)] when that is [None]) after the two error
    lines. *)
Theorem wait_raises_cases (World : Type) (operation : ExtendedOperation)
    (verbose_name : option string) (timeout : option Z) (s : state World)
    (e : exn) :
  let o := wait_for_extended_operation operation verbose_name timeout s in
  o.(out_result) = inl e ->
  (operation.(op_result) (or_default timeout 300%Z) = inl e
   /\ o.(out_trace) = [])
  \/ ((exists result,
          operation.(op_result) (or_default timeout 300%Z) = inr result)
      /\ truthy operation.(op_error_code) = true
      /\ e = or_default operation.(op_exception)
               (RuntimeError operation.(op_error_message))
      /\ stderr_of o.(out_trace) =
           [error_line (or_default verbose_name "operation") operation;
            operation_id_line operation]).
Proof.
  intros o. subst o. rewrite wait_run.
  destruct (op_result operation (or_default timeout 300%Z)) as [e'|r].
  - cbn [out_result out_trace]. intros [= ->]. now left.
  - cbv zeta. destruct (truthy (op_error_code operation)).
    + cbn [out_result out_trace]. intros [= <-]. right.
      split; [now exists r|]. now repeat split.
    + destruct (op_warnings operation); cbn [out_result]; discriminate.
Qed.

Lemma wait_raises_cases_witness :
  truthy op_failed.(op_error_code) = true
  /\ stderr_of
       (wait_for_extended_operation op_failed (Some "instance stopping")
          (Some 10%Z) loaded_state).(out_trace)
     = ["Error during instance stopping: [Code: 500]: Internal error";
        "Operation ID: operation-1"].
Proof.
  destruct (@wait_raises_cases unit op_failed (Some "instance stopping")
              (Some 10%Z) loaded_state
              (RuntimeError (PyStr "Internal error")) eq_refl)
    as [[H _] | (_ & Hc & _ & Ht)].
  - discriminate H.
  - split; [exact Hc | exact Ht].
Defined.

Lemma calls_of_map_Stderr (l : list string) : calls_of (map Stderr l) = [].
Proof. induction l as [|x l IH]; simpl; auto. Qed.

Lemma stdout_of_map_Stderr (l : list string) : stdout_of (map Stderr l) = [].
Proof. induction l as [|x l IH]; simpl; auto. Qed.

(** X3.  Whatever the handle reports, what the waiter itself prints goes
    to the error stream only: nothing on standard output and no Python
    warning.  It prints nothing when [operation.result] raises, two lines
    when the error code is truthy, and otherwise nothing without warnings
    and a header plus one line per warning with them. *)
Theorem wait_only_prints_errors (World : Type)
    (operation : ExtendedOperation) (verbose_name : option string)
    (timeout : option Z) (s : state World) :
  let o := wait_for_extended_operation operation verbose_name timeout s in
  o.(out_trace) = map Stderr (stderr_of o.(out_trace))
  /\ stdout_of o.(out_trace) = []
  /\ warnings_of o.(out_trace) = []
  /\ length (stderr_of o.(out_trace))
     = match operation.(op_result) (or_default timeout 300%Z) with
       | inl _ => 0
       | inr _ =>
           if truthy operation.(op_error_code) then 2
           else match operation.(op_warnings) with
                | [] => 0
                | ws => S (length ws)
                end
       end.
Proof.
  intros o. subst o.
  destruct (wait_trace_stderr operation verbose_name timeout s)
    as (lines & Ht & _).
  rewrite Ht, stderr_of_map_Stderr, stdout_of_map_Stderr,
    warnings_of_map_Stderr.
  split; [reflexivity|]. split; [reflexivity|]. split; [reflexivity|].
  rewrite <- (stderr_of_map_Stderr lines), <- Ht, wait_run.
  destruct (op_result operation (or_default timeout 300%Z)) as [e|r];
    [reflexivity|].
  cbv zeta. destruct (truthy (op_error_code operation)); [reflexivity|].
  destruct (op_warnings operation) as [|w ws]; [reflexivity|].
  cbn [out_trace].
  change (Stderr ?a :: ?l)%list with (map Stderr [a] ++ l)%list.
  rewrite stderr_of_app, stderr_of_map_Stderr.
  rewrite <- (map_map warning_line Stderr), stderr_of_map_Stderr.
  cbn [app length]. now rewrite length_map.
Qed.

(** ** The commands: submit, wait, confirm *)

Lemma calls_of_app (t u : list event) :
  calls_of (t ++ u)%list = (calls_of t ++ calls_of u)%list.
Proof. apply filter_app. Qed.

Lemma stdout_of_app (t u : list event) :
  stdout_of (t ++ u)%list = (stdout_of t ++ stdout_of u)%list.
Proof. apply flat_map_app. Qed.

(** A client call followed by the waiter with the default timeout and by
    [k]: every run, by cases on what the service and the handle answer. *)
Lemma call_wait_then (World B : Type) (ev : event)
    (f : World -> World * (exn + ExtendedOperation)) (label : string)
    (k : M World B) (s : state World) :
  (operation <- call ev f ;;
   wait_for_extended_operation operation (Some label) None ;; k) s
  = let s1 := mkState s.(st_heap) (fst (f s.(st_world))) in
    match snd (f s.(st_world)) with
    | inl e => mkOutcome s1 [ev] (inl e)
    | inr operation =>
        match operation.(op_result) 300%Z with
        | inl e => mkOutcome s1 [ev] (inl e)
        | inr _ =>
            if truthy operation.(op_error_code) then
              mkOutcome s1
                [ev; Stderr (error_line label operation);
                 Stderr (operation_id_line operation)]
                (inl (or_default operation.(op_exception)
                        (RuntimeError operation.(op_error_message))))
            else
              let o := k s1 in
              mkOutcome o.(out_state)
                (ev :: map Stderr (warning_lines label operation)
                 ++ o.(out_trace))%list
                o.(out_result)
        end
    end.
Proof.
  unfold bind at 1. unfold call.
  destruct (f (st_world s)) as [w [e|operation]];
    cbn [fst snd out_result out_state out_trace]; [reflexivity|].
  unfold bind. rewrite wait_run. cbn [or_default].
  destruct (op_result operation 300%Z) as [e|r];
    cbn [out_result out_state out_trace app]; [reflexivity|].
  destruct (truthy (op_error_code operation));
    cbn [out_result out_state out_trace app]; [reflexivity|].
  unfold warning_lines.
  destruct (op_warnings operation) as [|w0 ws];
    cbn [out_result out_state out_trace app map]; [reflexivity|].
  now rewrite map_map.
Qed.

Lemma call_event (ev : event) :
  is_call ev = true ->
  calls_of [ev] = [ev] /\ warnings_of [ev] = [] /\ stdout_of [ev] = []
  /\ stderr_of [ev] = [].
Proof. destruct ev; cbn; intros H; try discriminate H; now repeat split. Qed.

(** The outcome of a command of the shape submit, wait, confirm. *)
Lemma command_shape (World : Type) (ev : event)
    (f : World -> World * (exn + ExtendedOperation)) (label msg : string)
    (s : state World) :
  is_call ev = true ->
  let o :=
    (operation <- call ev f ;;
     wait_for_extended_operation operation (Some label) None ;;
     emit (Stdout msg)) s in
  calls_of o.(out_trace) = [ev]
  /\ warnings_of o.(out_trace) = []
  /\ stdout_of o.(out_trace)
     = match o.(out_result) with inr _ => [msg] | inl _ => [] end
  /\ (o.(out_result) = inr tt <->
      exists operation,
        snd (f s.(st_world)) = inr operation
        /\ operation_succeeds operation 300%Z = true)
  /\ o.(out_state) = mkState s.(st_heap) (fst (f s.(st_world))).
Proof.
  intros Hev o. subst o. rewrite call_wait_then. cbv zeta.
  destruct (call_event ev Hev) as (Hc & Hw & Ho & _).
  unfold operation_succeeds.
  destruct (snd (f (st_world s))) as [e|operation].
  - cbn [out_result out_trace out_state].
    split; [exact Hc|]. split; [exact Hw|]. split; [exact Ho|].
    split; [|reflexivity].
    split; [discriminate | intros (op & H & _); discriminate H].
  - destruct (op_result operation 300%Z) as [e|r] eqn:Er.
    + cbn [out_result out_trace out_state].
      split; [exact Hc|]. split; [exact Hw|]. split; [exact Ho|].
      split; [|reflexivity].
      split; [discriminate|].
      intros (op & [= <-] & H). rewrite Er in H. discriminate H.
    + destruct (truthy (op_error_code operation)) eqn:Ec.
      * cbn [out_result out_trace out_state].
        change [ev; Stderr ?a; Stderr ?b]
          with ([ev] ++ map Stderr [a; b])%list.
        rewrite calls_of_app, warnings_of_app, stdout_of_app.
        rewrite calls_of_map_Stderr, warnings_of_map_Stderr,
          stdout_of_map_Stderr, !app_nil_r.
        split; [exact Hc|]. split; [exact Hw|]. split; [exact Ho|].
        split; [|reflexivity].
        split; [discriminate|].
        intros (op & [= <-] & H). rewrite Er, Ec in H. discriminate H.
      * cbn [emit out_result out_state out_trace].
        change (ev :: ?l)%list with ([ev] ++ l)%list.
        rewrite !calls_of_app, !warnings_of_app, !stdout_of_app.
        rewrite calls_of_map_Stderr, warnings_of_map_Stderr,
          stdout_of_map_Stderr, Hc, Hw, Ho.
        split; [reflexivity|]. split; [reflexivity|].
        split; [reflexivity|]. split; [|reflexivity].
        split; [|reflexivity].
        intros _. exists operation. now rewrite Er, Ec.
Qed.

Lemma delete_instance_run (World : Type) (client : InstancesClient World)
    (project_id zone instance_name : string) (s : state World) :
  delete_instance client project_id zone instance_name s
  = let o :=
      (operation <- call (CallDelete project_id zone instance_name)
                      (client.(delete) project_id zone instance_name) ;;
       wait_for_extended_operation operation (Some "instance deletion")
         None ;;
       emit (Stdout ("Instance " ++ instance_name ++ " deleted."))) s in
    mkOutcome o.(out_state)
      (Stdout ("Deleting " ++ instance_name ++ " from " ++ zone ++ "...")
       :: o.(out_trace))
      o.(out_result).
Proof. reflexivity. Qed.

(** X4.  Each of [start_instance], [stop_instance] and [delete_instance] calls
    the compute service exactly once, its own method with the project, zone
    and instance name it was given, whatever the service and the handle
    answer; none of them raises a Python warning.  So does
    [start_instance] of [start.py]. *)
Theorem commands_call_once (World : Type) (client : InstancesClient World)
    (project_id zone instance_name : string) (s : state World) :
  let calls (m : M World unit) := calls_of (m s).(out_trace) in
  let warns (m : M World unit) := warnings_of (m s).(out_trace) in
  (calls (start_instance client project_id zone instance_name)
   = [CallStart project_id zone instance_name]
   /\ warns (start_instance client project_id zone instance_name) = [])
  /\ (calls (stop_instance client project_id zone instance_name)
      = [CallStop project_id zone instance_name]
      /\ warns (stop_instance client project_id zone instance_name) = [])
  /\ (calls (delete_instance client project_id zone instance_name)
      = [CallDelete project_id zone instance_name]
      /\ warns (delete_instance client project_id zone instance_name) = [])
  /\ calls (Start.start_instance client project_id zone instance_name)
     = [CallStart project_id zone instance_name].
Proof.
  intros calls warns. subst calls warns. cbv beta.
  split; [|split; [|split]].
  - unfold start_instance.
    destruct (command_shape (CallStart project_id zone instance_name)
                (start client project_id zone instance_name)
                "instance start"
                ("Instance " ++ instance_name ++ " started.") s eq_refl)
      as (Hc & Hw & _). now split.
  - unfold stop_instance.
    destruct (command_shape (CallStop project_id zone instance_name)
                (stop client project_id zone instance_name)
                "instance stopping"
                ("Instance " ++ instance_name ++ " stopped.") s eq_refl)
      as (Hc & Hw & _). now split.
  - rewrite delete_instance_run. cbv zeta. cbn [out_trace].
    destruct (command_shape (CallDelete project_id zone instance_name)
                (delete client project_id zone instance_name)
                "instance deletion"
                ("Instance " ++ instance_name ++ " deleted.") s eq_refl)
      as (Hc & Hw & _).
    split; [exact Hc | exact Hw].
  - unfold Start.start_instance.
    change (@Start.wait_for_extended_operation World)
      with (@wait_for_extended_operation World).
    rewrite call_wait_then. cbv zeta.
    destruct (snd (start client project_id zone instance_name (st_world s)))
      as [e|operation]; [reflexivity|].
    destruct (op_result operation 300%Z) as [e|r]; [reflexivity|].
    destruct (truthy (op_error_code operation)); [reflexivity|].
    cbn [ret out_trace]. rewrite app_nil_r.
    change (?a :: ?l)%list with ([a] ++ l)%list.
    now rewrite calls_of_app, calls_of_map_Stderr.
Qed.

(** X5.  [start_instance] and [stop_instance] print their confirmation line, and
    nothing else on standard output, exactly when they return; and they
    return exactly when the service answers the call with a handle whose
    [result(timeout=300)] returns and whose error code is falsy. *)
Theorem start_stop_confirm_iff_success (World : Type)
    (client : InstancesClient World)
    (project_id zone instance_name : string) (s : state World) :
  let started := start_instance client project_id zone instance_name s in
  let stopped := stop_instance client project_id zone instance_name s in
  (stdout_of started.(out_trace)
   = match started.(out_result) with
     | inr _ => ["Instance " ++ instance_name ++ " started."]
     | inl _ => []
     end
   /\ (started.(out_result) = inr tt <->
       exists operation,
         snd (client.(start) project_id zone instance_name s.(st_world))
         = inr operation
         /\ operation_succeeds operation 300%Z = true))
  /\ (stdout_of stopped.(out_trace)
      = match stopped.(out_result) with
        | inr _ => ["Instance " ++ instance_name ++ " stopped."]
        | inl _ => []
        end
      /\ (stopped.(out_result) = inr tt <->
          exists operation,
            snd (client.(stop) project_id zone instance_name s.(st_world))
            = inr operation
            /\ operation_succeeds operation 300%Z = true)).
Proof.
  intros started stopped. subst started stopped.
  unfold start_instance, stop_instance. split.
  - destruct (command_shape (CallStart project_id zone instance_name)
                (start client project_id zone instance_name)
                "instance start"
                ("Instance " ++ instance_name ++ " started.") s eq_refl)
      as (_ & _ & Ho & Hr & _). now split.
  - destruct (command_shape (CallStop project_id zone instance_name)
                (stop client project_id zone instance_name)
                "instance stopping"
                ("Instance " ++ instance_name ++ " stopped.") s eq_refl)
      as (_ & _ & Ho & Hr & _). now split.
Qed.

(** X6.  [delete_instance] announces the deletion before it calls the service,
    so that line is printed even when the call or the operation fails; the
    confirmation follows exactly when [delete_instance] returns, which is
    exactly when the handle lets the waiter through. *)
Theorem delete_announces_then_confirms (World : Type)
    (client : InstancesClient World)
    (project_id zone instance_name : string) (s : state World) :
  let o := delete_instance client project_id zone instance_name s in
  stdout_of o.(out_trace)
  = ("Deleting " ++ instance_name ++ " from " ++ zone ++ "...")
    :: match o.(out_result) with
       | inr _ => ["Instance " ++ instance_name ++ " deleted."]
       | inl _ => []
       end
  /\ (exists rest,
         o.(out_trace)
         = Stdout ("Deleting " ++ instance_name ++ " from " ++ zone ++ "...")
           :: CallDelete project_id zone instance_name :: rest)
  /\ (o.(out_result) = inr tt <->
      exists operation,
        snd (client.(delete) project_id zone instance_name s.(st_world))
        = inr operation
        /\ operation_succeeds operation 300%Z = true).
Proof.
  intros o. subst o. rewrite delete_instance_run. cbv zeta.
  cbn [out_trace out_result].
  destruct (command_shape (CallDelete project_id zone instance_name)
              (delete client project_id zone instance_name)
              "instance deletion"
              ("Instance " ++ instance_name ++ " deleted.") s eq_refl)
    as (_ & _ & Ho & Hr & _).
  split; [|split; [|exact Hr]].
  - change (Stdout ?a :: ?l)%list with ([Stdout a] ++ l)%list.
    rewrite stdout_of_app, Ho. reflexivity.
  - rewrite call_wait_then. cbv zeta.
    destruct (snd (delete client project_id zone instance_name (st_world s)))
      as [e|operation]; [now eexists|].
    destruct (op_result operation 300%Z) as [e|r]; [now eexists|].
    destruct (truthy (op_error_code operation)); now eexists.
Qed.

(** X7.  [start_instance] of [start.py] is the one of
    [vm_instance_operation.py] without the confirmation line: same service
    call, same diagnostics, same result and final state, and nothing at all
    on standard output. *)
Theorem start_py_prints_no_confirmation (World : Type)
    (client : InstancesClient World)
    (project_id zone instance_name : string) (s : state World) :
  let a := Start.start_instance client project_id zone instance_name s in
  let b := start_instance client project_id zone instance_name s in
  a.(out_result) = b.(out_result)
  /\ a.(out_state) = b.(out_state)
  /\ stdout_of a.(out_trace) = []
  /\ b.(out_trace)
     = (a.(out_trace)
        ++ match b.(out_result) with
           | inr _ => [Stdout ("Instance " ++ instance_name ++ " started.")]
           | inl _ => []
           end)%list.
Proof.
  intros a b. subst a b. unfold Start.start_instance, start_instance.
  change (@Start.wait_for_extended_operation World)
    with (@wait_for_extended_operation World).
  rewrite !call_wait_then. cbv zeta.
  destruct (snd (start client project_id zone instance_name (st_world s)))
    as [e|operation]; [now repeat split|].
  destruct (op_result operation 300%Z) as [e|r]; [now repeat split|].
  destruct (truthy (op_error_code operation)); [now repeat split|].
  cbn [ret emit out_result out_state out_trace]. rewrite app_nil_r.
  split; [reflexivity|]. split; [reflexivity|]. split; [|reflexivity].
  change (?a :: ?l)%list with ([a] ++ l)%list.
  now rewrite stdout_of_app, stdout_of_map_Stderr.
Qed.

(** ** [create_instance]: the whole run *)

Lemma create_instance_run (World : Type) (client : InstancesClient World)
    (defaults : create_instance_defaults)
    (project_id zone instance_name : string) (kw : create_instance_kwargs)
    (s : state World) :
  create_instance client defaults project_id zone instance_name kw s
  = let request :=
      mkInsertInstanceRequest (Some zone) (Some project_id)
        (Some (built defaults zone instance_name kw)) in
    let o :=
      (operation <- call (CallInsert request) (client.(insert) request) ;;
       wait_for_extended_operation operation (Some "instance creation")
         None ;;
       (emit (Stdout ("Instance " ++ instance_name ++ " created.")) ;;
        call (CallGet project_id zone instance_name)
          (client.(get) project_id zone instance_name))) s in
    mkOutcome o.(out_state)
      ((if or_default kw.(kw_preemptible) defaults.(d_preemptible)
        then [preemptible_warning] else [])
       ++ Stdout ("Creating the " ++ instance_name ++ " instance in " ++ zone
                  ++ "...")
       :: o.(out_trace))%list
      o.(out_result).
Proof.
  unfold create_instance, built, instance_of, network_interface_of.
  cbv zeta.
  destruct (or_default (kw_preemptible kw) (d_preemptible defaults));
    reflexivity.
Qed.

Lemma emit_call_run (World A : Type) (e ev : event)
    (f : World -> World * (exn + A)) (s : state World) :
  (emit e ;; call ev f) s
  = mkOutcome (mkState s.(st_heap) (fst (f s.(st_world)))) [e; ev]
      (snd (f s.(st_world))).
Proof.
  unfold bind, emit, call. cbn [out_result out_state out_trace st_world].
  now destruct (f (st_world s)).
Qed.

(** X8.  [create_instance] submits one request.  It fetches the instance, with
    the project, zone and name it was given, only after the operation went
    through the waiter, and then returns what [instance_client.get]
    answers (the service's description, or the exception [get] raises); in
    every other case it raises (the exception of [insert] when [insert]
    raises), without calling [get] and without printing the "created"
    line. *)
Theorem create_instance_fetches_after_success (World : Type)
    (client : InstancesClient World) (defaults : create_instance_defaults)
    (project_id zone instance_name : string) (kw : create_instance_kwargs)
    (s : state World) :
  let o :=
    create_instance client defaults project_id zone instance_name kw s in
  exists request,
    inserted o.(out_trace) = [request]
    /\ let answer := client.(insert) request s.(st_world) in
       let ok :=
         match snd answer with
         | inr operation => operation_succeeds operation 300%Z
         | inl _ => false
         end in
       calls_of o.(out_trace)
       = CallInsert request
         :: (if ok then [CallGet project_id zone instance_name] else [])
       /\ stdout_of o.(out_trace)
          = ("Creating the " ++ instance_name ++ " instance in " ++ zone
             ++ "...")
            :: (if ok then ["Instance " ++ instance_name ++ " created."]
                else [])
       /\ match snd answer with
          | inl e => o.(out_result) = inl e
          | inr _ =>
              if ok then
                o.(out_result)
                = snd (client.(get) project_id zone instance_name
                         (fst answer))
              else exists e, o.(out_result) = inl e
          end.
Proof.
  intros o. subst o. rewrite create_instance_run. cbv zeta.
  set (request :=
         mkInsertInstanceRequest (Some zone) (Some project_id)
           (Some (built defaults zone instance_name kw))).
  exists request. rewrite call_wait_then. cbv zeta.
  unfold operation_succeeds.
  assert (Hpre : forall t : list event,
             let pre :=
               if or_default (kw_preemptible kw) (d_preemptible defaults)
               then [preemptible_warning] else [] in
             inserted (pre ++ t)%list = inserted t
             /\ calls_of (pre ++ t)%list = calls_of t
             /\ stdout_of (pre ++ t)%list = stdout_of t).
  { intros t.
    now destruct (or_default (kw_preemptible kw) (d_preemptible defaults)). }
  destruct (snd (insert client request (st_world s))) as [e|operation].
  - cbn [out_result out_trace].
    destruct (Hpre (Stdout ("Creating the " ++ instance_name
                            ++ " instance in " ++ zone ++ "...")
                    :: [CallInsert request])) as (-> & -> & ->).
    split; [reflexivity|]. split; [reflexivity|]. split; reflexivity.
  - destruct (op_result operation 300%Z) as [e|r].
    + cbn [out_result out_trace].
      destruct (Hpre (Stdout ("Creating the " ++ instance_name
                              ++ " instance in " ++ zone ++ "...")
                      :: [CallInsert request])) as (-> & -> & ->).
      split; [reflexivity|]. split; [reflexivity|]. split; [reflexivity|].
      now exists e.
    + destruct (truthy (op_error_code operation)).
      * cbn [out_result out_trace negb].
        match goal with
        | |- context [(_ ++ ?t)%list] =>
            destruct (Hpre t) as (-> & -> & ->)
        end.
        split; [reflexivity|]. split; [reflexivity|].
        split; [reflexivity|]. now eexists.
      * rewrite emit_call_run. cbn [out_result out_trace negb st_world].
        match goal with
        | |- context [(_ ++ ?t)%list] =>
            destruct (Hpre t) as (-> & -> & ->)
        end.
        change (Stdout ?a :: CallInsert ?b :: ?l)%list
          with ([Stdout a; CallInsert b] ++ l)%list.
        rewrite !inserted_app, !calls_of_app, !stdout_of_app.
        rewrite inserted_map_Stderr, calls_of_map_Stderr,
          stdout_of_map_Stderr.
        split; [reflexivity|]. split; [reflexivity|].
        split; reflexivity.
Qed.

Lemma create_instance_inserted (World : Type)
    (client : InstancesClient World) (defaults : create_instance_defaults)
    (project_id zone instance_name : string) (kw : create_instance_kwargs)
    (s : state World) :
  inserted
    (create_instance client defaults project_id zone instance_name kw
       s).(out_trace)
  = [mkInsertInstanceRequest (Some zone) (Some project_id)
       (Some (built defaults zone instance_name kw))].
Proof.
  destruct (create_instance_submits client defaults project_id zone
              instance_name kw s) as (rest & -> & Hi & _).
  rewrite inserted_app.
  change (?a :: ?b :: rest) with ([a; b] ++ rest)%list.
  rewrite inserted_app, Hi.
  now destruct (or_default (kw_preemptible kw) (d_preemptible defaults)).
Qed.

(** X9.  When the service answers a command's call with an operation
    whose [result(timeout=300)] returns and whose error code is truthy, the
    command prints the error line with its own label (["instance start"],
    ["instance stopping"], ["instance deletion"], ["instance creation"])
    and the operation identifier, and raises [operation.exception()], or
    [RuntimeError(error_message)] when that is [None].  For
    [create_instance] the operation is the answer to the request it
    submits. *)
Theorem failed_operation_diagnostics (World : Type)
    (client : InstancesClient World)
    (project_id zone instance_name : string) (s : state World)
    (operation : ExtendedOperation) (result : pyval) :
  operation.(op_result) 300%Z = inr result ->
  truthy operation.(op_error_code) = true ->
  let raised :=
    match operation.(op_exception) with
    | Some e => e
    | None => RuntimeError operation.(op_error_message)
    end in
  let lines label :=
    ["Error during " ++ label ++ ": [Code: "
     ++ py_str operation.(op_error_code) ++ "]: "
     ++ py_str operation.(op_error_message);
     "Operation ID: " ++ operation.(op_name)] in
  (snd (client.(start) project_id zone instance_name s.(st_world))
   = inr operation ->
   let o := start_instance client project_id zone instance_name s in
   stderr_of o.(out_trace) = lines "instance start"
   /\ o.(out_result) = inl raised)
  /\ (snd (client.(stop) project_id zone instance_name s.(st_world))
      = inr operation ->
      let o := stop_instance client project_id zone instance_name s in
      stderr_of o.(out_trace) = lines "instance stopping"
      /\ o.(out_result) = inl raised)
  /\ (snd (client.(delete) project_id zone instance_name s.(st_world))
      = inr operation ->
      let o := delete_instance client project_id zone instance_name s in
      stderr_of o.(out_trace) = lines "instance deletion"
      /\ o.(out_result) = inl raised)
  /\ (forall defaults kw request,
         let o :=
           create_instance client defaults project_id zone instance_name kw
             s in
         inserted o.(out_trace) = [request] ->
         snd (client.(insert) request s.(st_world)) = inr operation ->
         stderr_of o.(out_trace) = lines "instance creation"
         /\ o.(out_result) = inl raised).
Proof.
  intros Hres Hcode raised lines. subst raised lines. cbv beta.
  split; [|split; [|split]].
  - intros Hs o. subst o. unfold start_instance.
    rewrite call_wait_then. cbv zeta. rewrite Hs, Hres, Hcode.
    split; reflexivity.
  - intros Hs o. subst o. unfold stop_instance.
    rewrite call_wait_then. cbv zeta. rewrite Hs, Hres, Hcode.
    split; reflexivity.
  - intros Hs o. subst o. rewrite delete_instance_run. cbv zeta.
    rewrite call_wait_then. cbv zeta. rewrite Hs, Hres, Hcode.
    split; reflexivity.
  - intros defaults kw request o Hi Hs. subst o.
    rewrite create_instance_inserted in Hi. injection Hi as <-.
    rewrite create_instance_run. cbv zeta.
    rewrite call_wait_then. cbv zeta. rewrite Hs, Hres, Hcode.
    cbn [out_trace out_result].
    split; [|reflexivity].
    now destruct (or_default (kw_preemptible kw) (d_preemptible defaults)).
Qed.

Lemma failed_operation_diagnostics_witness :
  stderr_of
    (stop_instance failing_client "sanguine-line-391106" "us-central1-c"
       "my-instance" loaded_state).(out_trace)
  = ["Error during instance stopping: [Code: 500]: Internal error";
     "Operation ID: operation-1"]
  /\ (stop_instance failing_client "sanguine-line-391106" "us-central1-c"
        "my-instance" loaded_state).(out_result)
     = inl (RuntimeError (PyStr "Internal error")).
Proof.
  exact (proj1 (proj2
    (@failed_operation_diagnostics unit failing_client
       "sanguine-line-391106" "us-central1-c" "my-instance" loaded_state
       op_failed PyNone eq_refl eq_refl)) eq_refl).
Defined.

(** ** [create_instance]: the request *)

(** X10.  The one request [create_instance] submits carries the zone and the
    project of the call; its instance has the given name and exactly one
    network interface, on [network_link], which is
    ["global/networks/default"] when the argument is omitted. *)
Theorem request_carries_arguments (World : Type)
    (client : InstancesClient World) (h : heap)
    (project_id zone instance_name : string) (kw : create_instance_kwargs)
    (s : state World) :
  let defaults := snd (def_create_instance h) in
  let o :=
    create_instance client defaults project_id zone instance_name kw s in
  exists request instance network_interface,
    inserted o.(out_trace) = [request]
    /\ request.(r_zone) = Some zone
    /\ request.(r_project) = Some project_id
    /\ request.(r_instance_resource) = Some instance
    /\ instance.(i_name) = Some instance_name
    /\ instance.(i_network_interfaces) = [network_interface]
    /\ network_interface.(ni_network)
       = Some (match kw.(kw_network_link) with
               | Some link => link
               | None => "global/networks/default"
               end).
Proof.
  intros defaults o. subst o.
  rewrite create_instance_inserted, built_fields. cbv zeta.
  do 3 eexists. repeat split; reflexivity.
Qed.

(** X11.  The optional settings of the submitted instance: the hostname is the
    [custom_hostname] argument whenever it is not [None], the empty string
    included; deletion protection is set to [True] when requested and is
    otherwise left unset, never set to [False]; the accelerators are the
    given list, and an empty list is the same as none. *)
Theorem optional_settings (World : Type) (client : InstancesClient World)
    (h : heap) (project_id zone instance_name : string)
    (kw : create_instance_kwargs) (s : state World) :
  let defaults := snd (def_create_instance h) in
  let o :=
    create_instance client defaults project_id zone instance_name kw s in
  exists instance,
    built_instances o.(out_trace) = [instance]
    /\ instance.(i_hostname) = kw.(kw_custom_hostname)
    /\ instance.(i_deletion_protection)
       = match kw.(kw_delete_protection) with
         | Some true => Some true
         | Some false | None => None
         end
    /\ instance.(i_guest_accelerators)
       = match kw.(kw_accelerators) with
         | Some accelerators => accelerators
         | None => []
         end.
Proof.
  intros defaults o. subst o.
  rewrite create_instance_built, built_fields. cbv zeta.
  eexists. split; [reflexivity|].
  cbn [i_hostname i_deletion_protection i_guest_accelerators].
  subst defaults.
  cbn [def_create_instance alloc snd d_custom_hostname d_delete_protection
       d_accelerators].
  split; [now destruct (kw_custom_hostname kw)|].
  split; [now destruct (kw_delete_protection kw) as [[|]|]|].
  now destruct (kw_accelerators kw) as [[|a l]|].
Qed.

(** ** Machine types: short names and the pattern *)

Lemma all_in_app (cls : ascii -> bool) (a b : string) :
  all_in cls (a ++ b) = all_in cls a && all_in cls b.
Proof.
  induction a as [|c a IH]; simpl; [reflexivity|].
  now rewrite IH, andb_assoc.
Qed.

(** A name over [[a-z0-9-]] has no [/]: it is not fully qualified. *)
Lemma short_name_no_match (machine_type : string) :
  all_in cls_lower_digit_dash machine_type = true ->
  re_match machine_type_re machine_type = false.
Proof.
  intros Hall.
  destruct (re_match machine_type_re machine_type) eqn:E; [|reflexivity].
  apply machine_type_re_language in E as (z & t & e & -> & _).
  rewrite all_in_app in Hall. discriminate Hall.
Qed.

Lemma created_machine_type (World : Type) (client : InstancesClient World)
    (defaults : create_instance_defaults)
    (project_id zone instance_name : string) (kw : create_instance_kwargs)
    (s : state World) (machine_type : string) :
  map i_machine_type
    (built_instances
       (create_instance client defaults project_id zone instance_name
          (with_machine_type machine_type kw) s).(out_trace))
  = [Some (if re_match machine_type_re machine_type then machine_type
           else "zones/" ++ zone ++ "/machineTypes/" ++ machine_type)].
Proof. now rewrite create_instance_built, built_fields. Qed.

Lemma append_empty_r (a : string) : a ++ "" = a.
Proof. induction a as [|c a IH]; simpl; [reflexivity | now rewrite IH]. Qed.

(** X13.  For a zone and a short machine type that are non-empty names over
    [[a-z0-9-]], the machine type of the submitted instance is
    [zones/<zone>/machineTypes/<type>], it matches the fully-qualified
    pattern, and passing it back as [machine_type] leaves it as it is:
    normalisation is idempotent on such inputs. *)
Theorem short_machine_type_qualified (World : Type)
    (client : InstancesClient World) (defaults : create_instance_defaults)
    (project_id zone instance_name : string) (kw : create_instance_kwargs)
    (s : state World) (machine_type : string) :
  zone <> "" -> all_in cls_lower_digit_dash zone = true ->
  machine_type <> "" -> all_in cls_lower_digit_dash machine_type = true ->
  let full := "zones/" ++ zone ++ "/machineTypes/" ++ machine_type in
  let submitted mt :=
    map i_machine_type
      (built_instances
         (create_instance client defaults project_id zone instance_name
            (with_machine_type mt kw) s).(out_trace)) in
  submitted machine_type = [Some full]
  /\ re_match machine_type_re full = true
  /\ submitted full = [Some full].
Proof.
  intros Hz Hza Hm Hma full submitted. subst submitted. cbv beta.
  assert (Hfull : re_match machine_type_re full = true).
  { apply machine_type_re_language. exists zone, machine_type, "".
    subst full. rewrite append_empty_r. repeat split; auto. }
  rewrite !created_machine_type, Hfull, (short_name_no_match _ Hma).
  now repeat split.
Qed.

Lemma short_machine_type_qualified_witness :
  map i_machine_type
    (built_instances
       (create_instance sample_client loaded_defaults "sanguine-line-391106"
          "europe-west1-b" "my-instance"
          (with_machine_type "e2-micro" no_kwargs) loaded_state).(out_trace))
  = [Some "zones/europe-west1-b/machineTypes/e2-micro"]
  /\ re_match machine_type_re "zones/europe-west1-b/machineTypes/e2-micro"
     = true.
Proof.
  pose proof (@short_machine_type_qualified unit sample_client
                loaded_defaults "sanguine-line-391106" "europe-west1-b"
                "my-instance" no_kwargs loaded_state "e2-micro"
                ltac:(discriminate) eq_refl ltac:(discriminate) eq_refl)
    as H.
  split; [exact (proj1 H) | exact (proj1 (proj2 H))].
Defined.

(** X14.  The pattern's [$] also holds before a final line feed: a fully
    qualified machine type followed by one line feed matches, and is
    submitted as it is, line feed included, whatever the zone of the call. *)
Theorem trailing_line_feed_kept (World : Type)
    (client : InstancesClient World) (defaults : create_instance_defaults)
    (project_id zone instance_name : string) (kw : create_instance_kwargs)
    (s : state World) (z t : string) :
  z <> "" -> all_in cls_lower_digit_dash z = true ->
  t <> "" -> all_in cls_lower_digit_dash t = true ->
  let machine_type := "zones/" ++ z ++ "/machineTypes/" ++ t ++ nl in
  re_match machine_type_re machine_type = true
  /\ map i_machine_type
       (built_instances
          (create_instance client defaults project_id zone instance_name
             (with_machine_type machine_type kw) s).(out_trace))
     = [Some machine_type].
Proof.
  intros Hz Hza Ht Hta machine_type.
  assert (Hm : re_match machine_type_re machine_type = true).
  { apply machine_type_re_language. exists z, t, nl.
    repeat split; auto. }
  split; [exact Hm|]. now rewrite created_machine_type, Hm.
Qed.

Lemma trailing_line_feed_kept_witness :
  map i_machine_type
    (built_instances
       (create_instance sample_client loaded_defaults "sanguine-line-391106"
          "europe-west1-b" "my-instance"
          (with_machine_type ("zones/us-central1-c/machineTypes/e2-micro"
                              ++ nl) no_kwargs)
          loaded_state).(out_trace))
  = [Some ("zones/us-central1-c/machineTypes/e2-micro" ++ nl)].
Proof.
  exact (proj2 (@trailing_line_feed_kept unit sample_client loaded_defaults
                  "sanguine-line-391106" "europe-west1-b" "my-instance"
                  no_kwargs loaded_state "us-central1-c" "e2-micro"
                  ltac:(discriminate) eq_refl ltac:(discriminate) eq_refl)).
Defined.

(** X15.  [create_instance] raises the deprecation warning exactly when
    [preemptible] is true, whatever [spot] is and whatever becomes of the
    request; the warning then comes first, before the progress line and
    before the request is submitted. *)
Theorem deprecation_warning_first (World : Type)
    (client : InstancesClient World) (h : heap)
    (project_id zone instance_name : string) (kw : create_instance_kwargs)
    (s : state World) :
  let defaults := snd (def_create_instance h) in
  let o :=
    create_instance client defaults project_id zone instance_name kw s in
  let progress :=
    Stdout ("Creating the " ++ instance_name ++ " instance in " ++ zone
            ++ "...") in
  match kw.(kw_preemptible) with
  | Some true =>
      warnings_of o.(out_trace)
      = [("DeprecationWarning",
          "Preemptible VMs are being replaced by Spot VMs.")]
      /\ exists request rest,
           o.(out_trace)
           = Warn "DeprecationWarning"
               "Preemptible VMs are being replaced by Spot VMs."
             :: progress :: CallInsert request :: rest
  | Some false | None =>
      warnings_of o.(out_trace) = []
      /\ exists request rest,
           o.(out_trace) = progress :: CallInsert request :: rest
  end.
Proof.
  intros defaults o progress. subst o progress.
  rewrite create_instance_warnings.
  destruct (create_instance_submits client defaults project_id zone
              instance_name kw s) as (rest & -> & _).
  subst defaults. cbn [def_create_instance alloc snd d_preemptible].
  destruct (kw_preemptible kw) as [[|]|]; cbn [or_default app];
    (split; [reflexivity | now eexists; eexists]).
Qed.

Lemma length_append (a b : string) :
  String.length (a ++ b) = String.length a + String.length b.
Proof. induction a as [|c a IH]; simpl; [reflexivity | now rewrite IH]. Qed.

Lemma qualified_is_longer (zone machine_type : string) :
  "zones/" ++ zone ++ "/machineTypes/" ++ machine_type <> machine_type.
Proof.
  intros H. apply (f_equal String.length) in H.
  rewrite !length_append in H. simpl in H. lia.
Qed.

(** X16.  For an ASCII [machine_type] argument, [create_instance] submits
    the argument as it is exactly when it reads [zones/Z/machineTypes/T],
    with [Z] and [T] non-empty over [[a-z0-9-]], possibly followed by one
    line feed; any other ASCII argument, the empty string included, is
    submitted with [zones/<zone>/machineTypes/] in front of it. *)
Theorem verbatim_iff_qualified (World : Type)
    (client : InstancesClient World) (defaults : create_instance_defaults)
    (project_id zone instance_name : string) (kw : create_instance_kwargs)
    (s : state World) (machine_type : string) :
  all_in is_ascii machine_type = true ->
  let submitted :=
    map i_machine_type
      (built_instances
         (create_instance client defaults project_id zone instance_name
            (with_machine_type machine_type kw) s).(out_trace)) in
  let qualified :=
    exists z t e,
      machine_type = "zones/" ++ z ++ "/machineTypes/" ++ t ++ e
      /\ z <> "" /\ all_in cls_lower_digit_dash z = true
      /\ t <> "" /\ all_in cls_lower_digit_dash t = true
      /\ (e = "" \/ e = nl) in
  (submitted = [Some machine_type] <-> qualified)
  /\ (~ qualified ->
      submitted
      = [Some ("zones/" ++ zone ++ "/machineTypes/" ++ machine_type)]).
Proof.
  intros _ submitted qualified. subst submitted qualified.
  rewrite created_machine_type, <- machine_type_re_language.
  destruct (re_match machine_type_re machine_type).
  - split; [now split | intros H; now elim H].
  - split; [|reflexivity].
    split; [|discriminate].
    intros [= H]. now apply qualified_is_longer in H.
Qed.

Lemma verbatim_iff_qualified_witness :
  all_in is_ascii "zones/us_central1/machineTypes/N1" = true
  /\ map i_machine_type
       (built_instances
          (create_instance sample_client loaded_defaults
             "sanguine-line-391106" "us-central1-c" "my-instance"
             (with_machine_type "zones/us_central1/machineTypes/N1"
                no_kwargs) loaded_state).(out_trace))
     = [Some "zones/us-central1-c/machineTypes/zones/us_central1/machineTypes/N1"].
Proof.
  split; [reflexivity|].
  apply (proj2 (@verbatim_iff_qualified unit sample_client loaded_defaults
                  "sanguine-line-391106" "us-central1-c" "my-instance"
                  no_kwargs loaded_state "zones/us_central1/machineTypes/N1"
                  eq_refl)).
  intros Hq.
  assert (Hm : re_match machine_type_re "zones/us_central1/machineTypes/N1"
               = true)
    by (apply machine_type_re_language; exact Hq).
  vm_compute in Hm. discriminate Hm.
Defined.

(** X17.  When the service call itself raises, [start_instance],
    [stop_instance] and [delete_instance] raise that exception at once:
    they do not wait, print nothing to the error stream and no
    confirmation. *)
Theorem client_exception_propagates (World : Type)
    (client : InstancesClient World)
    (project_id zone instance_name : string) (s : state World) (e : exn) :
  (snd (client.(start) project_id zone instance_name s.(st_world)) = inl e ->
   let o := start_instance client project_id zone instance_name s in
   o.(out_result) = inl e
   /\ o.(out_trace) = [CallStart project_id zone instance_name])
  /\ (snd (client.(stop) project_id zone instance_name s.(st_world))
      = inl e ->
      let o := stop_instance client project_id zone instance_name s in
      o.(out_result) = inl e
      /\ o.(out_trace) = [CallStop project_id zone instance_name])
  /\ (snd (client.(delete) project_id zone instance_name s.(st_world))
      = inl e ->
      let o := delete_instance client project_id zone instance_name s in
      o.(out_result) = inl e
      /\ o.(out_trace)
         = [Stdout ("Deleting " ++ instance_name ++ " from " ++ zone
                    ++ "...");
            CallDelete project_id zone instance_name]).
Proof.
  split; [|split]; intros He o; subst o.
  - unfold start_instance. rewrite call_wait_then. cbv zeta.
    rewrite He. now split.
  - unfold stop_instance. rewrite call_wait_then. cbv zeta.
    rewrite He. now split.
  - rewrite delete_instance_run. cbv zeta. rewrite call_wait_then.
    cbv zeta. rewrite He. now split.
Qed.

Lemma client_exception_propagates_witness :
  (stop_instance
     (mkInstancesClient
        (fun _ w => (w, inr op_warned))
        (fun _ _ _ w => (w, inr new_Instance))
        (fun _ _ _ w => (w, inr op_warned))
        (fun _ _ _ w => (w, inl (SdkError "NotFound")))
        (fun _ _ _ w => (w, inr op_warned)))
     "sanguine-line-391106" "us-central1-c" "my-instance"
     loaded_state).(out_result)
  = inl (SdkError "NotFound").
Proof.
  exact (proj1 (proj1 (proj2
    (@client_exception_propagates unit
       (mkInstancesClient
          (fun _ w => (w, inr op_warned))
          (fun _ _ _ w => (w, inr new_Instance))
          (fun _ _ _ w => (w, inr op_warned))
          (fun _ _ _ w => (w, inl (SdkError "NotFound")))
          (fun _ _ _ w => (w, inr op_warned)))
       "sanguine-line-391106" "us-central1-c" "my-instance" loaded_state
       (SdkError "NotFound"))) eq_refl)).
Defined.
